(** * field-ext: field extraction and salary calculations of streamlit_app.py

    A shallow embedding of the three pure pieces of [streamlit_app.py]:
    [extract_salary_fields] / [extract_itr_fields] (regular-expression
    extraction with numeric coercion), [perform_calculations] (derived
    metrics) and the formatting of the calculations table.

    Modelling conventions.
    - A Python [str] is a [string]: the UTF-8 bytes of the text.  The
      character classes of [re] ([\s], [\d], [[A-Za-z]], IGNORECASE) and
      of [str.strip] are modelled on ASCII; the extra whitespace, digits
      and case variants that Python's Unicode tables add outside ASCII are
      not modelled.
    - A Python [float] is a primitive binary64 [float]; its arithmetic is
      the kernel's IEEE 754 arithmetic.
    - The values stored in the dictionaries are the two kinds the
      extractors produce: [float] and [str].  An integer written in an
      example ([50000]) is read as the float of that value.
    - A [dict] is an insertion-ordered association list with unique keys.
    - Exceptions are explicit: every operation that can raise returns an
      [outcome].
    - The data frame of the calculations table is the list of its rows
      with the element type of its [Value] column.  The source pins no
      version of pandas, so what a write of a string into a column of
      floats does is a parameter ([frame_policy]). *)

From Stdlib Require Import ZArith List String Ascii Bool Lia DecimalString.
From Stdlib Require Import Floats.
Import ListNotations.

Local Open Scope list_scope.
Local Open Scope string_scope.

(** ** Exceptions *)

Inductive exn : Type :=
| KeyError
| TypeError
| ValueError
| ZeroDivisionError
| AttributeError.

Inductive outcome (A : Type) : Type :=
| Return (a : A)
| Raise (e : exn).

Arguments Return {A} a.
Arguments Raise {A} e.

Definition bind {A B : Type} (c : outcome A) (k : A -> outcome B) : outcome B :=
  match c with
  | Return a => k a
  | Raise e => Raise e
  end.

Notation "x <- c ;; k" := (bind c (fun x => k))
  (at level 61, c at next level, right associativity).

(** ** Values and dictionaries *)

Inductive value : Type :=
| VFloat (f : float)
| VStr (s : string).

Definition is_number (v : value) : bool :=
  match v with
  | VFloat _ => true
  | VStr _ => false
  end.

Definition dict : Type := list (string * value).

Fixpoint dict_get (d : dict) (k : string) : option value :=
  match d with
  | [] => None
  | (k', v) :: d' => if String.eqb k k' then Some v else dict_get d' k
  end.

(** [k in d] *)
Definition dict_in (k : string) (d : dict) : bool :=
  match dict_get d k with
  | Some _ => true
  | None => false
  end.

(** [d[k]] *)
Definition dict_getitem (d : dict) (k : string) : outcome value :=
  match dict_get d k with
  | Some v => Return v
  | None => Raise KeyError
  end.

(** [d[k] = v]: an existing key keeps its place, a new key goes last. *)
Fixpoint dict_set (d : dict) (k : string) (v : value) : dict :=
  match d with
  | [] => [(k, v)]
  | (k', v') :: d' =>
      if String.eqb k k' then (k, v) :: d' else (k', v') :: dict_set d' k v
  end.

Definition dict_keys (d : dict) : list string := map fst d.

(** ** Python's arithmetic on the two kinds of value *)

(** The float of an integer literal. *)
Definition float_of_Z (n : Z) : float :=
  SF2Prim (binary_normalize prec emax n 0 false).

Fixpoint str_repeat (s : string) (n : nat) : string :=
  match n with
  | O => ""
  | S n' => s ++ str_repeat s n'
  end.

(** [v * n] for an integer literal [n]: float multiplication, or
    repetition of a string. *)
Definition py_mul_int (v : value) (n : Z) : outcome value :=
  match v with
  | VFloat f => Return (VFloat (f * float_of_Z n))
  | VStr s => Return (VStr (str_repeat s (Z.to_nat n)))
  end.

(** [v / n] for a non-zero integer literal [n]. *)
Definition py_truediv_int (v : value) (n : Z) : outcome value :=
  match v with
  | VFloat f => Return (VFloat (f / float_of_Z n))
  | VStr _ => Raise TypeError
  end.

(** [a / b] *)
Definition py_truediv (a b : value) : outcome value :=
  match a, b with
  | VFloat x, VFloat y =>
      if (y =? 0)%float then Raise ZeroDivisionError else Return (VFloat (x / y))
  | _, _ => Raise TypeError
  end.

(** [a - b] *)
Definition py_sub (a b : value) : outcome value :=
  match a, b with
  | VFloat x, VFloat y => Return (VFloat (x - y))
  | _, _ => Raise TypeError
  end.

(** [v > n] for an integer literal [n]. *)
Definition py_gt_int (v : value) (n : Z) : outcome bool :=
  match v with
  | VFloat f => Return (float_of_Z n <? f)%float
  | VStr _ => Raise TypeError
  end.

(** ** perform_calculations *)

Definition perform_calculations (salary_data itr_data : dict) : outcome dict :=
  let calculations : dict := [] in
  (* annual salary from monthly net amount *)
  calculations <-
    (if dict_in "net_amount" salary_data then
       n <- dict_getitem salary_data "net_amount" ;;
       v <- py_mul_int n 12 ;;
       Return (dict_set calculations "annual_salary" v)
     else Return calculations) ;;
  (* monthly salary from annual income in ITR *)
  calculations <-
    (if dict_in "total_income" itr_data then
       t <- dict_getitem itr_data "total_income" ;;
       v <- py_truediv_int t 12 ;;
       Return (dict_set calculations "monthly_income_from_itr" v)
     else Return calculations) ;;
  (* tax percentage *)
  guard <-
    (if dict_in "gross_salary" salary_data then
       if dict_in "tax_deducted" salary_data then
         g <- dict_getitem salary_data "gross_salary" ;;
         py_gt_int g 0
       else Return false
     else Return false) ;;
  calculations <-
    (if guard : bool then
       t <- dict_getitem salary_data "tax_deducted" ;;
       g <- dict_getitem salary_data "gross_salary" ;;
       q <- py_truediv t g ;;
       v <- py_mul_int q 100 ;;
       Return (dict_set calculations "tax_percentage" v)
     else Return calculations) ;;
  (* annual tax from monthly tax deducted *)
  calculations <-
    (if dict_in "tax_deducted" salary_data then
       t <- dict_getitem salary_data "tax_deducted" ;;
       v <- py_mul_int t 12 ;;
       Return (dict_set calculations "annual_tax" v)
     else Return calculations) ;;
  (* difference between ITR total income and calculated annual salary *)
  calculations <-
    (if dict_in "total_income" itr_data then
       if dict_in "annual_salary" calculations then
         t <- dict_getitem itr_data "total_income" ;;
         a <- dict_getitem calculations "annual_salary" ;;
         v <- py_sub t a ;;
         Return (dict_set calculations "income_difference" v)
       else Return calculations
     else Return calculations) ;;
  Return calculations.

(** The fields [perform_calculations] reads hold numbers where present. *)
Definition number_or_absent (d : dict) (k : string) : bool :=
  match dict_get d k with
  | Some v => is_number v
  | None => true
  end.

Definition numeric_inputs (salary_data itr_data : dict) : bool :=
  number_or_absent salary_data "net_amount"
  && number_or_absent salary_data "gross_salary"
  && number_or_absent salary_data "tax_deducted"
  && number_or_absent itr_data "total_income".

(** ** Characters and the string methods used by the program *)

Definition in_range (lo hi : nat) (c : ascii) : bool :=
  (lo <=? nat_of_ascii c)%nat && (nat_of_ascii c <=? hi)%nat.

(** [\d] on ASCII text (Python also takes the decimal digits of other
    scripts, which an ASCII text has none of). *)
Definition is_digit (c : ascii) : bool := in_range 48 57 c.

(** [\s], and the characters [str.strip] removes, on ASCII text: tab to
    carriage return, the four separators 0x1c to 0x1f, and the space
    (Python also takes white space outside ASCII, such as U+00A0). *)
Definition is_space (c : ascii) : bool :=
  in_range 9 13 c || in_range 28 31 c || Ascii.eqb c " ".

Definition is_upper (c : ascii) : bool := in_range 65 90 c.
Definition is_lower (c : ascii) : bool := in_range 97 122 c.
Definition is_alpha (c : ascii) : bool := is_upper c || is_lower c.

Definition to_lower (c : ascii) : ascii :=
  if is_upper c then ascii_of_nat (nat_of_ascii c + 32) else c.

Definition to_upper (c : ascii) : ascii :=
  if is_lower c then ascii_of_nat (nat_of_ascii c - 32) else c.

Fixpoint str_forall (p : ascii -> bool) (s : string) : bool :=
  match s with
  | EmptyString => true
  | String c s' => p c && str_forall p s'
  end.

Fixpoint str_map (f : ascii -> ascii) (s : string) : string :=
  match s with
  | EmptyString => EmptyString
  | String c s' => String (f c) (str_map f s')
  end.

Fixpoint str_rev_onto (s acc : string) : string :=
  match s with
  | EmptyString => acc
  | String c s' => str_rev_onto s' (String c acc)
  end.

Definition str_rev (s : string) : string := str_rev_onto s "".

(** [s.replace(',', '')] *)
Fixpoint remove_commas (s : string) : string :=
  match s with
  | EmptyString => EmptyString
  | String c s' =>
      if Ascii.eqb c "," then remove_commas s' else String c (remove_commas s')
  end.

Fixpoint str_lstrip (s : string) : string :=
  match s with
  | EmptyString => EmptyString
  | String c s' => if is_space c then str_lstrip s' else s
  end.

Definition str_rstrip (s : string) : string :=
  str_rev (str_lstrip (str_rev s)).

(** [s.strip()] *)
Definition str_strip (s : string) : string := str_rstrip (str_lstrip s).

(** [s.split(sep)] for a one-character separator. *)
Fixpoint str_split (sep : ascii) (s : string) : list string :=
  match s with
  | EmptyString => [EmptyString]
  | String c s' =>
      if Ascii.eqb c sep then EmptyString :: str_split sep s'
      else match str_split sep s' with
           | w :: ws => String c w :: ws
           | [] => [String c EmptyString]
           end
  end.

(** [sep.join(words)] *)
Fixpoint str_join (sep : string) (words : list string) : string :=
  match words with
  | [] => ""
  | [w] => w
  | w :: ws => w ++ sep ++ str_join sep ws
  end.

(** [s.capitalize()] *)
Definition str_capitalize (s : string) : string :=
  match s with
  | EmptyString => EmptyString
  | String c s' => String (to_upper c) (str_map to_lower s')
  end.

(** ** Regular expressions

    The patterns of the program use literals, ordered alternation,
    greedy repetition of a single character class, optional parts and
    one capture group.  [rmatch] is the backtracking matcher of [re]:
    alternatives are tried in order, a repetition takes as much as it can
    and gives back one character at a time, and the first complete match
    wins. *)

Inductive regex : Type :=
| Eps
| Chr (p : ascii -> bool)
| Seq (r1 r2 : regex)
| Alt (r1 r2 : regex)
| Star (p : ascii -> bool)
| Group (r : regex).

(** The match object: [group(1)] is [None] when the group took no part. *)
Record match_object : Type := { group1 : option string }.

Section Matcher.
Context {A : Type}.

Fixpoint star_match (p : ascii -> bool) (s : string) (k : string -> option A)
  : option A :=
  match s with
  | String c s' =>
      if p c then
        match star_match p s' k with
        | Some x => Some x
        | None => k s
        end
      else k s
  | EmptyString => k s
  end.

(** The text between the start [s] of a group and the rest [s'] left
    after it. *)
Definition consumed (s s' : string) : string :=
  substring 0 (String.length s - String.length s') s.

Fixpoint rmatch (r : regex) (s : string) (g : option string)
    (k : string -> option string -> option A) : option A :=
  match r with
  | Eps => k s g
  | Chr p =>
      match s with
      | String c s' => if p c then k s' g else None
      | EmptyString => None
      end
  | Seq r1 r2 => rmatch r1 s g (fun s1 g1 => rmatch r2 s1 g1 k)
  | Alt r1 r2 =>
      match rmatch r1 s g k with
      | Some x => Some x
      | None => rmatch r2 s g k
      end
  | Star p => star_match p s (fun s' => k s' g)
  | Group r1 => rmatch r1 s g (fun s' _ => k s' (Some (consumed s s')))
  end.
End Matcher.

(** [re.match]: a match that starts at the beginning of [s]. *)
Definition re_match_here (r : regex) (s : string) : option match_object :=
  rmatch r s None (fun _ g => Some {| group1 := g |}).

(** [re.search]: the match at the leftmost position that has one. *)
Fixpoint re_search (r : regex) (text : string) : option match_object :=
  match re_match_here r text with
  | Some m => Some m
  | None =>
      match text with
      | String _ text' => re_search r text'
      | EmptyString => None
      end
  end.

(** *** Pattern syntax under [re.IGNORECASE] *)

(** A literal character, folded on ASCII (Python also lets [s], [i]
    and [k] match U+017F, U+0130, U+0131 and U+212A). *)
Definition chr (c : ascii) : regex :=
  Chr (fun x => Ascii.eqb (to_lower x) (to_lower c)).

(** A literal string. *)
Fixpoint lit (s : string) : regex :=
  match s with
  | EmptyString => Eps
  | String c EmptyString => chr c
  | String c s' => Seq (chr c) (lit s')
  end.

(** [(?:r1|r2|...)] *)
Fixpoint alts (rs : list regex) : regex :=
  match rs with
  | [] => Chr (fun _ => false)
  | [r] => r
  | r :: rs' => Alt r (alts rs')
  end.

(** [r?] *)
Definition opt (r : regex) : regex := Alt r Eps.

(** [[...]+] *)
Definition plus (p : ascii -> bool) : regex := Seq (Chr p) (Star p).

(** [r1 r2 ... rn] *)
Fixpoint seq (rs : list regex) : regex :=
  match rs with
  | [] => Eps
  | [r] => r
  | r :: rs' => Seq r (seq rs')
  end.

(** [\s*] *)
Definition ws : regex := Star is_space.

(** [[A-Za-z\s]] *)
Definition alpha_or_space (c : ascii) : bool := is_alpha c || is_space c.
(** [[A-Za-z0-9]] on ASCII text; under IGNORECASE also what [[A-Z0-9]]
    accepts (outside ASCII Python adds U+017F, U+0130, U+0131, U+212A). *)
Definition alnum (c : ascii) : bool := is_alpha c || is_digit c.
(** [[\d,]] *)
Definition digit_or_comma (c : ascii) : bool := is_digit c || Ascii.eqb c ",".

(** The capture group of an amount: one or more of [\d,], an optional
    dot, then any number of [\d]. *)
Definition amount_body : regex :=
  seq [plus digit_or_comma; opt (chr "."); Star is_digit].

Definition amount_group : regex := Group amount_body.

(** A currency rule: the label synonyms, optional white space, an
    optional colon, white space, an optional marker among [Rs], [Rs.],
    the rupee sign and [INR], white space, and the amount group. *)
Definition currency_pattern (labels : list string) : regex :=
  seq [alts (map lit labels); ws; opt (chr ":"); ws;
       opt (alts [Seq (lit "Rs") (opt (chr ".")); lit "₹"; lit "INR"]);
       ws; amount_group].

(** A text rule: the label synonyms, optional white space, an optional
    colon, white space, and the group [body]. *)
Definition text_pattern (labels : list string) (body : regex) : regex :=
  seq [alts (map lit labels); ws; opt (chr ":"); ws; Group body].

(** ** float(str)

    Python's [float] on a string: surrounding white space is dropped, a
    sign may come first, and the rest is a decimal literal with at least
    one digit, read as the binary64 nearest to its value (ties to even,
    overflow to infinity).  The literal forms that need other characters
    (exponents, [inf], [nan], underscores) are not modelled: the argument
    built by the extractors holds digits and dots only. *)

Definition digit_val (c : ascii) : Z := Z.of_nat (nat_of_ascii c - 48).

Fixpoint digits_value (s : string) (acc : Z) : Z :=
  match s with
  | EmptyString => acc
  | String c s' => digits_value s' (10 * acc + digit_val c)
  end.

(** The text before the first dot, and the text after it when there is
    one. *)
Fixpoint split_dot (s : string) : string * option string :=
  match s with
  | EmptyString => (EmptyString, None)
  | String c s' =>
      if Ascii.eqb c "." then (EmptyString, Some s')
      else let (a, b) := split_dot s' in (String c a, b)
  end.

(** The binary64 nearest to [n / 10^k], with the sign [neg]. *)
Definition decimal_to_float (neg : bool) (n : Z) (k : nat) : float :=
  let num :=
    match n with
    | Zpos p => S754_finite neg p 0
    | _ => S754_zero neg
    end in
  let den := S754_finite false (Z.to_pos (10 ^ Z.of_nat k)) 0 in
  SF2Prim (SFdiv prec emax num den).

Definition py_float (s : string) : outcome float :=
  let t := str_strip s in
  let '(neg, body) :=
    match t with
    | String c r =>
        if Ascii.eqb c "-" then (true, r)
        else if Ascii.eqb c "+" then (false, r)
        else (false, t)
    | EmptyString => (false, t)
    end in
  let '(int_part, after_dot) := split_dot body in
  let frac_part := match after_dot with Some f => f | None => "" end in
  if str_forall is_digit int_part && str_forall is_digit frac_part
     && negb (Nat.eqb (String.length int_part + String.length frac_part) 0)
  then Return (decimal_to_float neg
                 (digits_value (int_part ++ frac_part) 0)
                 (String.length frac_part))
  else Raise ValueError.

(** ** The extractors *)

(** A method call on the result of [match.group(1)]: on [None] it raises
    [AttributeError]. *)
Definition str_of (o : option string) : outcome string :=
  match o with
  | Some s => Return s
  | None => Raise AttributeError
  end.

(** [field in fields] *)
Definition in_list (field : string) (fields : list string) : bool :=
  existsb (String.eqb field) fields.

(** [for x in items: body] over a state [s]. *)
Fixpoint for_each {A S : Type} (items : list A) (body : S -> A -> outcome S)
    (s : S) : outcome S :=
  match items with
  | [] => Return s
  | x :: items' => s' <- body s x ;; for_each items' body s'
  end.

(** The body of the extraction loop of both extractors; [numeric] is the
    list of fields converted to [float]. *)
Definition extract_step (numeric : list string) (text : string)
    (results : dict) (item : string * regex) : outcome dict :=
  let '(field, pattern) := item in
  match re_search pattern text with
  | Some m =>
      if in_list field numeric then
        g <- str_of (group1 m) ;;
        let value := remove_commas g in
        match py_float value with
        | Return f => Return (dict_set results field (VFloat f))
        | Raise ValueError => Return (dict_set results field (VStr g))
        | Raise e => Raise e
        end
      else
        g <- str_of (group1 m) ;;
        Return (dict_set results field (VStr (str_strip g)))
  | None => Return results
  end.

Definition salary_patterns : list (string * regex) :=
  [ ("employee_name",
      text_pattern ["Name"; "Employee Name"; "Employee"] (plus alpha_or_space));
    ("employee_id",
      text_pattern ["Employee ID"; "Emp ID"; "Employee No"; "ID"] (plus alnum));
    ("basic_salary", currency_pattern ["Basic Salary"; "Basic Pay"; "Basic"]);
    ("hra", currency_pattern ["HRA"; "House Rent Allowance"]);
    ("pf", currency_pattern ["PF"; "Provident Fund"]);
    ("gross_salary", currency_pattern ["Gross Salary"; "Gross Pay"; "Gross"]);
    ("net_amount",
      currency_pattern
        ["Net Amount"; "Net Salary"; "Net Pay"; "Take Home"; "Total"; "Net"]);
    ("tax_deducted", currency_pattern ["Tax Deducted"; "TDS"; "Income Tax"]) ].

Definition salary_numeric_fields : list string :=
  ["basic_salary"; "hra"; "pf"; "gross_salary"; "net_amount"; "tax_deducted"].

Definition extract_salary_fields (text : string) : outcome dict :=
  let results : dict := [] in
  for_each salary_patterns (extract_step salary_numeric_fields text) results.

(** The group of the assessment year: [20dd-dd], or else [20dd]. *)
Definition year_body : regex :=
  Alt (seq [lit "20"; Chr is_digit; Chr is_digit; chr "-";
            Chr is_digit; Chr is_digit])
      (seq [lit "20"; Chr is_digit; Chr is_digit]).

Definition itr_patterns : list (string * regex) :=
  [ ("pan", text_pattern ["PAN"; "Permanent Account Number"] (plus alnum));
    ("assessment_year", text_pattern ["Assessment Year"; "AY"] year_body);
    ("total_income", currency_pattern ["Total Income"; "Gross Total Income"]);
    ("taxable_income",
      currency_pattern ["Taxable Income"; "Net Taxable Income"]);
    ("tax_payable", currency_pattern ["Tax Payable"; "Total Tax Payable"]);
    ("tax_paid", currency_pattern ["Tax Paid"; "Total Tax Paid"]) ].

Definition itr_numeric_fields : list string :=
  ["total_income"; "taxable_income"; "tax_payable"; "tax_paid"].

Definition extract_itr_fields (text : string) : outcome dict :=
  let results : dict := [] in
  for_each itr_patterns (extract_step itr_numeric_fields text) results.

(** ** The calculations table *)

(** [' '.join(word.capitalize() for word in x.split('_'))] *)
Definition label_of (x : string) : string :=
  str_join " " (map str_capitalize (str_split "_" x)).

(** [num / den] rounded to the nearest integer, ties to even ([den > 0]). *)
Definition round_half_even (num den : Z) : Z :=
  let q := (num / den)%Z in
  match (2 * (num mod den) ?= den)%Z with
  | Lt => q
  | Gt => (q + 1)%Z
  | Eq => if Z.even q then q else (q + 1)%Z
  end.

Definition Z_to_string (n : Z) : string :=
  NilZero.string_of_uint (N.to_uint (Z.to_N n)).

(** A comma before every group of three digits, counted from the right;
    [s] is the reversed digit string and [i] the digits already in the
    current group. *)
Fixpoint group3_rev (s : string) (i : nat) : string :=
  match s with
  | EmptyString => EmptyString
  | String c s' =>
      if Nat.eqb i 3 then String "," (String c (group3_rev s' 1))
      else String c (group3_rev s' (S i))
  end.

Definition group_thousands (digits : string) : string :=
  str_rev (group3_rev (str_rev digits) 0).

Definition two_digits (n : Z) : string :=
  if (n <? 10)%Z then "0" ++ Z_to_string n else Z_to_string n.

(** [f"{x:,.2f}"]: the exact value of [x] rounded to two decimals (ties
    to even), the integer part grouped by thousands. *)
Definition format_2f (x : float) : string :=
  let sign (s : bool) := if s then "-" else "" in
  match Prim2SF x with
  | S754_nan => "nan"
  | S754_infinity s => sign s ++ "inf"
  | S754_zero s => sign s ++ "0.00"
  | S754_finite s m e =>
      let n :=
        match e with
        | Zneg p => round_half_even (Zpos m * 100) (2 ^ Zpos p)
        | _ => (Zpos m * 100 * 2 ^ e)%Z
        end in
      sign s ++ group_thousands (Z_to_string (n / 100)) ++ "."
        ++ two_digits (n mod 100)
  end.

(** The element type of the [Value] column of the data frame: floats
    when every value is one, objects as soon as one value is a string. *)
Inductive dtype : Type := Float64 | Object.

Definition column_dtype (data : dict) : dtype :=
  if forallb (fun kv => is_number (snd kv)) data then Float64 else Object.

(** What the data frame does with a string written into a column of
    floats: pandas before version 3 widens the column to objects (with a
    warning), pandas 3 raises [TypeError]. *)
Inductive frame_policy : Type := Widening | Strict.

(** [calc_df.at[i, 'Value'] = <str>], giving the element type of the
    column after the write. *)
Definition frame_write_str (policy : frame_policy) (column : dtype)
  : outcome dtype :=
  match column, policy with
  | Float64, Strict => Raise TypeError
  | _, _ => Return Object
  end.

(** The loop over the rows: the value of a row that is a number is
    replaced by its currency string, written into the frame. *)
Fixpoint format_rows (policy : frame_policy) (rows : list (string * value))
    (column : dtype) : outcome (list (string * value)) :=
  match rows with
  | [] => Return []
  | (k, v) :: rows' =>
      match v with
      | VFloat x =>
          column' <- frame_write_str policy column ;;
          rest <- format_rows policy rows' column' ;;
          Return ((k, VStr ("₹ " ++ format_2f x)) :: rest)
      | VStr _ =>
          rest <- format_rows policy rows' column ;;
          Return ((k, v) :: rest)
      end
  end.

(** The table shown for the calculations: one row per entry, in the
    order of the dictionary; the name made readable, a number shown as a
    currency string, anything else left as it is. *)
Definition format_calculations (policy : frame_policy) (data : dict)
  : outcome (list (string * value)) :=
  let calc_df := map (fun '(k, v) => (k, v)) data in
  let calc_df := map (fun '(k, v) => (label_of k, v)) calc_df in
  format_rows policy calc_df (column_dtype data).

(** ** Notions used to state and prove the properties *)

(** The two document types and what belongs to each. *)
Inductive document_type : Type := SalarySlip | TaxReturn.

Definition rules_of (dt : document_type) : list (string * regex) :=
  match dt with
  | SalarySlip => salary_patterns
  | TaxReturn => itr_patterns
  end.

Definition numeric_fields_of (dt : document_type) : list string :=
  match dt with
  | SalarySlip => salary_numeric_fields
  | TaxReturn => itr_numeric_fields
  end.

Definition extract (dt : document_type) (text : string) : outcome dict :=
  match dt with
  | SalarySlip => extract_salary_fields text
  | TaxReturn => extract_itr_fields text
  end.

(** The strings a pattern can take, read declaratively. *)
Fixpoint lang (r : regex) (w : string) : Prop :=
  match r with
  | Eps => w = ""
  | Chr p => exists c, w = String c "" /\ p c = true
  | Seq r1 r2 => exists u v, w = u ++ v /\ lang r1 u /\ lang r2 v
  | Alt r1 r2 => lang r1 w \/ lang r2 w
  | Star p => str_forall p w = true
  | Group r1 => lang r1 w
  end.

(** The body of the group a pattern ends with. *)
Fixpoint final_group (r : regex) : option regex :=
  match r with
  | Group b => Some b
  | Seq _ r2 => final_group r2
  | _ => None
  end.

(** What the loop body stores for a field whose group captured [g]. *)
Definition stored_value (numeric : list string) (field g : string) : value :=
  if in_list field numeric then
    match py_float (remove_commas g) with
    | Return f => VFloat f
    | Raise _ => VStr g
    end
  else VStr (str_strip g).

(** The characters of a captured amount. *)
Definition amount_char (c : ascii) : bool :=
  is_digit c || Ascii.eqb c "," || Ascii.eqb c ".".

(** ** The income chart of the analysis tab *)

(** [bool(d)] for a dictionary. *)
Definition dict_nonempty (d : dict) : bool :=
  match d with
  | [] => false
  | _ :: _ => true
  end.

(** The rows given to the bar chart, [None] when no chart is drawn.
    [data] is the stored calculations and [itr_data] the stored
    tax-document mapping, [None] when the session has none (the lookup
    then falls back to the empty dictionary). *)
Definition chart_rows (data : dict) (itr_data : option dict)
  : outcome (option dict) :=
  if dict_in "annual_salary" data then
    let chart_data : dict := [] in
    chart_data <-
      (if dict_in "annual_salary" data then
         v <- dict_getitem data "annual_salary" ;;
         Return (dict_set chart_data "Annual Salary (from slip)" v)
       else Return chart_data) ;;
    chart_data <-
      (if dict_in "total_income"
            (match itr_data with Some d => d | None => [] end) then
         d <- (match itr_data with
               | Some d => Return d
               | None => Raise KeyError
               end) ;;
         v <- dict_getitem d "total_income" ;;
         Return (dict_set chart_data "Total Income (from ITR)" v)
       else Return chart_data) ;;
    chart_data <-
      (if dict_in "annual_tax" data then
         v <- dict_getitem data "annual_tax" ;;
         Return (dict_set chart_data "Annual Tax" v)
       else Return chart_data) ;;
    if dict_nonempty chart_data then Return (Some chart_data)
    else Return None
  else Return None.

(** ** The handler of the "Process Documents" button

    The part of the handler that follows the check of the API key.  The
    recognised text of each uploaded file is an input: [None] stands for
    no upload or no text returned.  The session state is threaded
    through, and it keeps what was written before an exception. *)

Record session : Type := {
  st_salary_data : option dict;
  st_salary_text : option string;
  st_itr_data : option dict;
  st_itr_text : option string;
  st_calculations : option dict
}.

Definition run (A : Type) : Type := session -> outcome A * session.

Definition run_ret {A : Type} (a : A) : run A := fun st => (Return a, st).

Definition run_bind {A B : Type} (c : run A) (k : A -> run B) : run B :=
  fun st =>
    match c st with
    | (Return a, st') => k a st'
    | (Raise e, st') => (Raise e, st')
    end.

Definition run_lift {A : Type} (o : outcome A) : run A := fun st => (o, st).

Notation "x <~ c ;; k" := (run_bind c (fun x => k))
  (at level 61, c at next level, right associativity).

Definition set_salary (d : dict) (text : string) : run unit :=
  fun st =>
    (Return tt,
     {| st_salary_data := Some d; st_salary_text := Some text;
        st_itr_data := st_itr_data st; st_itr_text := st_itr_text st;
        st_calculations := st_calculations st |}).

Definition set_itr (d : dict) (text : string) : run unit :=
  fun st =>
    (Return tt,
     {| st_salary_data := st_salary_data st;
        st_salary_text := st_salary_text st;
        st_itr_data := Some d; st_itr_text := Some text;
        st_calculations := st_calculations st |}).

Definition set_calculations (d : dict) : run unit :=
  fun st =>
    (Return tt,
     {| st_salary_data := st_salary_data st;
        st_salary_text := st_salary_text st;
        st_itr_data := st_itr_data st; st_itr_text := st_itr_text st;
        st_calculations := Some d |}).

(** [if extracted_text:] *)
Definition text_truthy (t : string) : bool :=
  match t with
  | EmptyString => false
  | String _ _ => true
  end.

Definition process_documents (salary_ocr itr_ocr : option string) : run unit :=
  salary_data <~
    (match salary_ocr with
     | Some extracted_text =>
         if text_truthy extracted_text then
           salary_data <~ run_lift (extract_salary_fields extracted_text) ;;
           _ <~ set_salary salary_data extracted_text ;;
           run_ret salary_data
         else run_ret []
     | None => run_ret []
     end) ;;
  itr_data <~
    (match itr_ocr with
     | Some extracted_text =>
         if text_truthy extracted_text then
           itr_data <~ run_lift (extract_itr_fields extracted_text) ;;
           _ <~ set_itr itr_data extracted_text ;;
           run_ret itr_data
         else run_ret []
     | None => run_ret []
     end) ;;
  if dict_nonempty salary_data || dict_nonempty itr_data then
    calculations <~ run_lift (perform_calculations salary_data itr_data) ;;
    set_calculations calculations
  else run_ret tt.

(** ** The calculations part of the analysis tab

    With stored calculations that are not empty, the table is formatted
    and shown, then the rows of the chart are built and given to the bar
    chart; [None] when there is nothing to show. *)
Definition show_calculations (policy : frame_policy) (st : session)
  : outcome (option (list (string * value) * option dict)) :=
  match st_calculations st with
  | Some data =>
      if dict_nonempty data then
        table <- format_calculations policy data ;;
        chart <- chart_rows data (st_itr_data st) ;;
        Return (Some (table, chart))
      else Return None
  | None => Return None
  end.

(** ** Further notions used to state and prove the properties *)

(** The rows of the table when every write is taken. *)
Definition formatted_rows (data : dict) : list (string * value) :=
  map (fun kv => (label_of (fst kv),
                  match snd kv with
                  | VFloat x => VStr ("₹ " ++ format_2f x)
                  | VStr s => VStr s
                  end)) data.

(** A text of ASCII characters only: on such a text the character
    classes of the model are those of Python. *)
Definition is_ascii (c : ascii) : bool := (nat_of_ascii c <? 128)%nat.

Definition ascii_text (text : string) : bool := str_forall is_ascii text.

(** The fields a text gives to the handler: none without a text. *)
Definition fresh_fields (dt : document_type) (ocr : option string) : dict :=
  match ocr with
  | Some text =>
      if text_truthy text then
        match extract dt text with
        | Return d => d
        | Raise _ => []
        end
      else []
  | None => []
  end.

(** A text was recognised for the document. *)
Definition has_text (ocr : option string) : bool :=
  match ocr with
  | Some text => text_truthy text
  | None => false
  end.

(** All the characters. *)
Definition all_ascii : list ascii := map ascii_of_nat (List.seq 0 256).

(** [q] holds of every character class of a pattern. *)
Fixpoint regex_forall (q : (ascii -> bool) -> bool) (r : regex) : bool :=
  match r with
  | Eps => true
  | Chr p => q p
  | Seq r1 r2 => regex_forall q r1 && regex_forall q r2
  | Alt r1 r2 => regex_forall q r1 && regex_forall q r2
  | Star p => q p
  | Group r1 => regex_forall q r1
  end.

(** A class that does not tell a letter from its upper case. *)
Definition case_blind (p : ascii -> bool) : bool :=
  forallb (fun c => Bool.eqb (p (to_upper c)) (p c)) all_ascii.

Definition str_upper (s : string) : string := str_map to_upper s.

Definition value_upper (v : value) : value :=
  match v with
  | VFloat f => VFloat f
  | VStr s => VStr (str_upper s)
  end.

Definition match_upper (m : match_object) : match_object :=
  {| group1 := option_map str_upper (group1 m) |}.

Definition dict_upper (d : dict) : dict :=
  map (fun kv => (fst kv, value_upper (snd kv))) d.

(** A rule matches the text. *)
Definition rule_matches (text : string) (item : string * regex) : bool :=
  match re_search (snd item) text with
  | Some _ => true
  | None => false
  end.

(** * Properties *)

(** ** Strings *)

Lemma str_app_assoc (a b c : string) : (a ++ b) ++ c = a ++ (b ++ c).
Proof. induction a as [|x a IH]; simpl; [reflexivity | now rewrite IH]. Qed.

Lemma str_app_nil_r (a : string) : a ++ "" = a.
Proof. induction a as [|x a IH]; simpl; [reflexivity | now rewrite IH]. Qed.

Lemma str_length_app (a b : string) :
  String.length (a ++ b) = String.length a + String.length b.
Proof. induction a as [|x a IH]; simpl; [reflexivity | now rewrite IH]. Qed.

Lemma substring_prefix (w s : string) :
  substring 0 (String.length w) (w ++ s) = w.
Proof.
  induction w as [|x w IH]; simpl.
  - destruct s; reflexivity.
  - now rewrite IH.
Qed.

Lemma consumed_app (w s : string) : consumed (w ++ s) s = w.
Proof.
  unfold consumed. rewrite str_length_app.
  replace (String.length w + String.length s - String.length s)
    with (String.length w) by lia.
  apply substring_prefix.
Qed.

Lemma str_forall_app (p : ascii -> bool) (a b : string) :
  str_forall p (a ++ b) = str_forall p a && str_forall p b.
Proof.
  induction a as [|x a IH]; simpl; [reflexivity|].
  rewrite IH. destruct (p x), (str_forall p a), (str_forall p b); reflexivity.
Qed.

Lemma str_forall_impl (p q : ascii -> bool) (s : string) :
  (forall c, p c = true -> q c = true) ->
  str_forall p s = true -> str_forall q s = true.
Proof.
  intros Hpq. induction s as [|x s IH]; simpl; [reflexivity|].
  intros H. apply andb_true_iff in H as [Hx Hs].
  apply andb_true_iff. split; auto.
Qed.

Lemma str_rev_onto_twice (s acc acc' : string) :
  str_rev_onto (str_rev_onto s acc) acc' = str_rev_onto acc (s ++ acc').
Proof.
  revert acc acc'. induction s as [|x s IH]; intros acc acc'; simpl.
  - reflexivity.
  - rewrite IH. reflexivity.
Qed.

Lemma str_rev_involutive (s : string) : str_rev (str_rev s) = s.
Proof.
  unfold str_rev. rewrite str_rev_onto_twice. simpl. apply str_app_nil_r.
Qed.

Lemma str_forall_rev_onto (p : ascii -> bool) (s acc : string) :
  str_forall p (str_rev_onto s acc) = str_forall p s && str_forall p acc.
Proof.
  revert acc. induction s as [|x s IH]; intros acc; simpl.
  - reflexivity.
  - rewrite IH. simpl.
    destruct (p x), (str_forall p s), (str_forall p acc); reflexivity.
Qed.

Lemma str_lstrip_id (s : string) :
  str_forall (fun c => negb (is_space c)) s = true -> str_lstrip s = s.
Proof.
  destruct s as [|x s]; simpl; [reflexivity|].
  intros H. apply andb_true_iff in H as [Hx _].
  apply negb_true_iff in Hx. now rewrite Hx.
Qed.

(** [strip] leaves a string without white space as it is. *)
Lemma str_strip_id (s : string) :
  str_forall (fun c => negb (is_space c)) s = true -> str_strip s = s.
Proof.
  intros H. unfold str_strip, str_rstrip.
  rewrite (str_lstrip_id s H).
  rewrite str_lstrip_id.
  - apply str_rev_involutive.
  - unfold str_rev. rewrite str_forall_rev_onto, H. reflexivity.
Qed.

Lemma amount_char_not_space (c : ascii) :
  amount_char c = true -> negb (is_space c) = true.
Proof.
  destruct c as [[] [] [] [] [] [] [] []]; vm_compute; congruence.
Qed.

Lemma digit_or_comma_amount_char (c : ascii) :
  digit_or_comma c = true -> amount_char c = true.
Proof.
  unfold amount_char, digit_or_comma. intros ->. reflexivity.
Qed.

Lemma is_digit_amount_char (c : ascii) :
  is_digit c = true -> amount_char c = true.
Proof.
  unfold amount_char. intros ->. reflexivity.
Qed.

Lemma dot_amount_char (c : ascii) :
  Ascii.eqb (to_lower c) (to_lower ".") = true -> amount_char c = true.
Proof.
  destruct c as [[] [] [] [] [] [] [] []]; vm_compute; congruence.
Qed.

(** ** Dictionaries *)

Lemma dict_get_set_same (d : dict) (k : string) (v : value) :
  dict_get (dict_set d k v) k = Some v.
Proof.
  induction d as [|[k' v'] d IH]; simpl.
  - now rewrite String.eqb_refl.
  - destruct (String.eqb k k') eqn:E; simpl; rewrite ?String.eqb_refl, ?E; auto.
Qed.

Lemma dict_get_set_other (d : dict) (k k' : string) (v : value) :
  k' <> k -> dict_get (dict_set d k v) k' = dict_get d k'.
Proof.
  intros Hne. induction d as [|[k0 v0] d IH]; simpl.
  - destruct (String.eqb_spec k' k); [contradiction | reflexivity].
  - destruct (String.eqb_spec k k0) as [->|Hk]; simpl.
    + destruct (String.eqb_spec k' k0); [contradiction | reflexivity].
    + destruct (String.eqb_spec k' k0); [reflexivity | apply IH].
Qed.

Lemma dict_keys_set (d : dict) (k : string) (v : value) (x : string) :
  In x (dict_keys (dict_set d k v)) -> x = k \/ In x (dict_keys d).
Proof.
  unfold dict_keys. induction d as [|[k0 v0] d IH]; simpl.
  - intros [<-|[]]. now left.
  - destruct (String.eqb_spec k k0) as [->|Hk]; simpl.
    + intros [<-|H]; auto.
    + intros [<-|H]; auto. destruct (IH H); auto.
Qed.

(** ** The matcher *)

Lemma star_match_sound {A : Type} (p : ascii -> bool) (s : string)
    (k : string -> option A) (x : A) :
  star_match p s k = Some x ->
  exists w s', s = w ++ s' /\ str_forall p w = true /\ k s' = Some x.
Proof.
  induction s as [|c s IH]; simpl; intros H.
  - exists "", "". auto.
  - destruct (p c) eqn:Hc.
    + destruct (star_match p s k) as [y|] eqn:Hs.
      * injection H as ->. destruct (IH eq_refl) as (w & s' & -> & Hw & Hk).
        exists (String c w), s'. simpl. rewrite Hc, Hw. auto.
      * exists "", (String c s). auto.
    + exists "", (String c s). auto.
Qed.

(** Every result of the matcher comes from the continuation, called on
    what is left after a string of the pattern. *)
Lemma rmatch_sound {A : Type} (r : regex) :
  forall (s : string) (g : option string)
         (k : string -> option string -> option A) (x : A),
    rmatch r s g k = Some x ->
    exists w s' g', s = w ++ s' /\ lang r w /\ k s' g' = Some x.
Proof.
  induction r as [|p|r1 IH1 r2 IH2|r1 IH1 r2 IH2|p|r1 IH1];
    intros s g k x H; simpl in H.
  - exists "", s, g. simpl. auto.
  - destruct s as [|c s]; [discriminate|].
    destruct (p c) eqn:Hc; [|discriminate].
    exists (String c ""), s, g. simpl. eauto.
  - apply IH1 in H as (w1 & s1 & g1 & -> & L1 & H).
    apply IH2 in H as (w2 & s2 & g2 & -> & L2 & H).
    exists (w1 ++ w2), s2, g2. rewrite str_app_assoc. simpl. eauto 7.
  - destruct (rmatch r1 s g k) as [y|] eqn:E.
    + injection H as ->. apply IH1 in E as (w & s' & g' & -> & L & H).
      exists w, s', g'. simpl. auto.
    + apply IH2 in H as (w & s' & g' & -> & L & H).
      exists w, s', g'. simpl. auto.
  - apply star_match_sound in H as (w & s' & -> & Hw & H).
    exists w, s', g. simpl. auto.
  - apply IH1 in H as (w & s' & g' & -> & L & H).
    exists w, s', (Some (consumed (w ++ s') s')). simpl. auto.
Qed.

(** A match of a pattern that ends with a group has the group set, to a
    string of the group's body. *)
Lemma rmatch_final_group {A : Type} (r b : regex) :
  final_group r = Some b ->
  forall (s : string) (g : option string)
         (k : string -> option string -> option A) (x : A),
    rmatch r s g k = Some x ->
    exists w s', lang b w /\ k s' (Some w) = Some x.
Proof.
  induction r as [|p|r1 IH1 r2 IH2|r1 IH1 r2 IH2|p|r1 IH1];
    simpl; intros Hb s g k x H; try discriminate.
  - apply rmatch_sound in H as (w1 & s1 & g1 & -> & _ & H).
    eapply IH2; eauto.
  - injection Hb as ->.
    apply rmatch_sound in H as (w & s' & g' & -> & L & H).
    rewrite consumed_app in H. eauto.
Qed.

Lemma re_search_group (r b : regex) (text : string) (m : match_object) :
  final_group r = Some b ->
  re_search r text = Some m ->
  exists w, group1 m = Some w /\ lang b w.
Proof.
  intros Hb. induction text as [|c text IH]; simpl.
  - destruct (re_match_here r "") as [m'|] eqn:E; [|discriminate].
    intros H; injection H as ->.
    apply (rmatch_final_group r b Hb) in E as (w & s' & L & E).
    injection E as <-. simpl. eauto.
  - destruct (re_match_here r (String c text)) as [m'|] eqn:E; [|exact IH].
    intros H; injection H as ->.
    apply (rmatch_final_group r b Hb) in E as (w & s' & L & E).
    injection E as <-. simpl. eauto.
Qed.

(** A captured amount is made of digits, commas and dots. *)
Lemma amount_body_chars (w : string) :
  lang amount_body w -> str_forall amount_char w = true.
Proof.
  simpl. intros (u & v & -> & (u1 & u2 & -> & (c & -> & Hc) & Hu2)
                 & (v1 & v2 & -> & Hv1 & Hv2)).
  rewrite !str_forall_app. simpl.
  rewrite (digit_or_comma_amount_char c Hc).
  rewrite (str_forall_impl _ _ u2 digit_or_comma_amount_char Hu2).
  rewrite (str_forall_impl _ _ v2 is_digit_amount_char Hv2).
  destruct Hv1 as [(d & -> & Hd)| ->]; simpl.
  - rewrite (dot_amount_char d Hd). reflexivity.
  - reflexivity.
Qed.

Lemma amount_strip_id (w : string) : lang amount_body w -> str_strip w = w.
Proof.
  intros L. apply str_strip_id.
  apply (str_forall_impl amount_char); [apply amount_char_not_space|].
  now apply amount_body_chars.
Qed.


(** ** Floats: the two facts about comparison with zero *)

Lemma float_of_Z_0 : float_of_Z 0 = 0%float.
Proof. reflexivity. Qed.

Lemma float_gt_zero_nonzero (g : float) :
  (0 <? g)%float = true -> (g =? 0)%float = false.
Proof.
  rewrite ltb_spec, eqb_spec.
  change (Prim2SF 0) with (S754_zero false).
  destruct (Prim2SF g) as [s | s | | s m e]; try destruct s;
    cbv [SFltb SFeqb SFcompare]; congruence.
Qed.

Lemma float_eq_zero_not_gt (g : float) :
  (g =? 0)%float = true -> (0 <? g)%float = false.
Proof.
  intros H. destruct (0 <? g)%float eqn:E; [|reflexivity].
  apply float_gt_zero_nonzero in E. congruence.
Qed.

(** ** perform_calculations *)

Example calc_ok :
  perform_calculations [("net_amount", VFloat 50000)] [("total_income", VFloat 700000)]
  = Return [("annual_salary", VFloat 600000);
            ("monthly_income_from_itr", VFloat (700000 / 12));
            ("income_difference", VFloat 100000)].
Proof. vm_compute. reflexivity. Qed.

(** Case analysis on the four fields [perform_calculations] reads, for
    inputs that hold numbers there. *)
Ltac calc_cases salary_data itr_data :=
  unfold perform_calculations, numeric_inputs, number_or_absent,
    dict_in, dict_getitem in *;
  destruct (dict_get salary_data "net_amount") as [[n|?]|];
  destruct (dict_get salary_data "gross_salary") as [[g0|?]|] eqn:Egross;
  destruct (dict_get salary_data "tax_deducted") as [[t0|?]|] eqn:Etax;
  destruct (dict_get itr_data "total_income") as [[ti|?]|];
  simpl in *; try discriminate;
  try (rewrite float_of_Z_0;
       destruct (0 <? g0)%float eqn:Egt; simpl;
       [rewrite (float_gt_zero_nonzero _ Egt); simpl|]).

(** On inputs whose consumed fields are numbers the call returns. *)
Lemma perform_calculations_returns (salary_data itr_data : dict) :
  numeric_inputs salary_data itr_data = true ->
  exists m, perform_calculations salary_data itr_data = Return m.
Proof.
  intros H. calc_cases salary_data itr_data; eexists; reflexivity.
Qed.

(** On such inputs every metric is a number. *)
Lemma metrics_are_numbers (salary_data itr_data m : dict) :
  numeric_inputs salary_data itr_data = true ->
  perform_calculations salary_data itr_data = Return m ->
  Forall (fun kv => is_number (snd kv) = true) m.
Proof.
  intros H. calc_cases salary_data itr_data;
    intros R; injection R as <-; repeat constructor.
Qed.

(** A metric is present only if the fields of its rule are. *)
Lemma metric_present_only_if_inputs (salary_data itr_data m : dict) (k : string) :
  perform_calculations salary_data itr_data = Return m ->
  dict_in k m = true ->
  (k = "annual_salary" /\ dict_in "net_amount" salary_data = true)
  \/ (k = "monthly_income_from_itr" /\ dict_in "total_income" itr_data = true)
  \/ (k = "tax_percentage" /\ dict_in "gross_salary" salary_data = true
        /\ dict_in "tax_deducted" salary_data = true)
  \/ (k = "annual_tax" /\ dict_in "tax_deducted" salary_data = true)
  \/ (k = "income_difference" /\ dict_in "total_income" itr_data = true
        /\ dict_in "net_amount" salary_data = true).
Proof.
  unfold perform_calculations, dict_in, dict_getitem.
  destruct (dict_get salary_data "net_amount") as [[n|?]|];
  destruct (dict_get salary_data "gross_salary") as [[g0|?]|];
  destruct (dict_get salary_data "tax_deducted") as [[t0|?]|];
  destruct (dict_get itr_data "total_income") as [[ti|?]|];
  simpl; try discriminate;
  try (rewrite float_of_Z_0; destruct (0 <? g0)%float; simpl;
       try (destruct (g0 =? 0)%float; simpl));
  intros R; try discriminate R; injection R as <-; simpl;
  repeat (match goal with
          | |- context [String.eqb k ?s] =>
              destruct (String.eqb_spec k s); [subst; simpl; tauto|]
          end);
  discriminate.
Qed.

(** C1 (the code departs from the claim).  The claim: for every pair of
    field mappings [perform_calculations] returns and never raises, also
    when a currency field holds the raw string left by a failed numeric
    conversion.  The code: the tax document "Total Income: ," extracts to
    [total_income = ","], and on that mapping the division by 12 raises
    [TypeError]; a raw string under [gross_salary] (with [tax_deducted]
    present) raises at the comparison with 0. *)
Theorem perform_calculations_raises_on_raw_string :
  extract_salary_fields "" = Return []
  /\ extract_itr_fields "Total Income: ," = Return [("total_income", VStr ",")]
  /\ perform_calculations [] [("total_income", VStr ",")] = Raise TypeError
  /\ perform_calculations
       [("gross_salary", VStr ","); ("tax_deducted", VFloat 500)] []
     = Raise TypeError.
Proof. repeat split; vm_compute; reflexivity. Qed.

(** C2 (the code departs from the claim).  The claim: every entry of the
    returned metrics is a decimal number.  The code: the salary slip
    "Net: ," extracts to [net_amount = ","], and the product by 12 of
    that string is the string repeated twelve times, returned as
    [annual_salary]. *)
Theorem metric_can_be_a_string :
  extract_salary_fields "Net: ," = Return [("net_amount", VStr ",")]
  /\ perform_calculations [("net_amount", VStr ",")] []
     = Return [("annual_salary", VStr ",,,,,,,,,,,,")].
Proof. split; vm_compute; reflexivity. Qed.

(** C3 (the code departs from the claim).  The claim: for every salary
    mapping with [gross_salary > 0] and [tax_deducted] the call produces
    [tax_percentage], and with [gross_salary == 0] it leaves the entry
    out without an error.  The code: the slip "Gross: 20000 TDS: ,"
    extracts to [gross_salary = 20000.0] and [tax_deducted = ","], and
    the quotient of the string by the number raises [TypeError]; for
    [{gross_salary: 0, tax_deducted: 500}] beside the tax document
    "Total Income: ," the call raises [TypeError] too. *)
Theorem tax_percentage_raises_on_raw_string :
  extract_salary_fields "Gross: 20000 TDS: ,"
  = Return [("gross_salary", VFloat 20000); ("tax_deducted", VStr ",")]
  /\ perform_calculations
       [("gross_salary", VFloat 20000); ("tax_deducted", VStr ",")] []
     = Raise TypeError
  /\ extract_itr_fields "Total Income: ," = Return [("total_income", VStr ",")]
  /\ perform_calculations
       [("gross_salary", VFloat 0); ("tax_deducted", VFloat 500)]
       [("total_income", VStr ",")]
     = Raise TypeError.
Proof. repeat split; vm_compute; reflexivity. Qed.

(** Guarded division on numbers: when [gross_salary] and [tax_deducted]
    are numbers (and so are the other fields the call reads), the call
    returns; with [gross_salary > 0] the result holds
    [tax_percentage = tax_deducted / gross_salary * 100]; with
    [gross_salary == 0] it holds no [tax_percentage].  For
    [{gross_salary: 0, tax_deducted: 500}] the result is
    [{annual_tax: 6000}]. *)
Theorem tax_percentage_guarded_division
    (salary_data itr_data : dict) (g t : float) :
  dict_get salary_data "gross_salary" = Some (VFloat g) ->
  dict_get salary_data "tax_deducted" = Some (VFloat t) ->
  numeric_inputs salary_data itr_data = true ->
  (exists m, perform_calculations salary_data itr_data = Return m
     /\ ((0 <? g)%float = true ->
         dict_get m "tax_percentage" = Some (VFloat (t / g * 100)))
     /\ ((g =? 0)%float = true -> dict_in "tax_percentage" m = false))
  /\ perform_calculations
       [("gross_salary", VFloat 0); ("tax_deducted", VFloat 500)] []
     = Return [("annual_tax", VFloat 6000)].
Proof.
  intros Hg Ht Hn. split; [|vm_compute; reflexivity].
  unfold numeric_inputs, number_or_absent in Hn.
  unfold perform_calculations, dict_in, dict_getitem.
  rewrite Hg, Ht in *.
  destruct (dict_get salary_data "net_amount") as [[n|?]|];
  destruct (dict_get itr_data "total_income") as [[ti|?]|];
  simpl in Hn; try discriminate; simpl; rewrite float_of_Z_0;
  destruct (0 <? g)%float eqn:Egt; simpl;
  try (rewrite (float_gt_zero_nonzero _ Egt); simpl);
  eexists; (split; [reflexivity|]); simpl; split; intros H;
  try reflexivity; try discriminate;
  apply float_eq_zero_not_gt in H; congruence.
Qed.

Lemma tax_percentage_guarded_division_witness :
  (exists m,
     perform_calculations
       [("gross_salary", VFloat 20000); ("tax_deducted", VFloat 500)] []
     = Return m
     /\ ((0 <? 20000)%float = true ->
         dict_get m "tax_percentage" = Some (VFloat (500 / 20000 * 100)))
     /\ ((20000 =? 0)%float = true -> dict_in "tax_percentage" m = false))
  /\ perform_calculations
       [("gross_salary", VFloat 0); ("tax_deducted", VFloat 500)] []
     = Return [("annual_tax", VFloat 6000)].
Proof.
  apply (tax_percentage_guarded_division
           [("gross_salary", VFloat 20000); ("tax_deducted", VFloat 500)] []
           20000 500); reflexivity.
Defined.

(** C4 (the code departs from the claim).  The claim: [income_difference]
    is produced exactly when [total_income] is in the tax document and
    rule 1 has produced [annual_salary].  The code: the slip "Net: ,"
    extracts to [net_amount = ","], rule 1 produces the string repeated
    twelve times, and with [total_income = 700000.0] the difference of
    the number and the string raises [TypeError]: both conditions hold
    and no [income_difference] is produced. *)
Theorem income_difference_raises_on_raw_string :
  extract_salary_fields "Net: ," = Return [("net_amount", VStr ",")]
  /\ extract_itr_fields "Total Income: 700000"
     = Return [("total_income", VFloat 700000)]
  /\ perform_calculations [("net_amount", VStr ",")] []
     = Return [("annual_salary", VStr ",,,,,,,,,,,,")]
  /\ perform_calculations
       [("net_amount", VStr ",")] [("total_income", VFloat 700000)]
     = Raise TypeError.
Proof. repeat split; vm_compute; reflexivity. Qed.

(** Dependency of rule 5 on rule 1 on numbers: on inputs whose consumed
    fields are numbers the call returns, [annual_salary] is there exactly when
    [net_amount] is and equals [net_amount * 12], and
    [income_difference] is there exactly when [total_income] is in the
    tax document and [annual_salary] is in the result, and equals
    [total_income - annual_salary].  For [{net_amount: 50000}] and
    [{total_income: 700000}]: [annual_salary = 600000] and
    [income_difference = 100000]. *)
Theorem income_difference_after_annual_salary (salary_data itr_data : dict) :
  numeric_inputs salary_data itr_data = true ->
  (exists m, perform_calculations salary_data itr_data = Return m
     /\ (forall a, dict_get m "annual_salary" = Some a <->
           exists n, dict_get salary_data "net_amount" = Some (VFloat n)
                     /\ a = VFloat (n * 12))
     /\ (forall v, dict_get m "income_difference" = Some v <->
           exists ti a, dict_get itr_data "total_income" = Some (VFloat ti)
                        /\ dict_get m "annual_salary" = Some (VFloat a)
                        /\ v = VFloat (ti - a)))
  /\ (exists m,
        perform_calculations
          [("net_amount", VFloat 50000)] [("total_income", VFloat 700000)]
        = Return m
        /\ dict_get m "annual_salary" = Some (VFloat 600000)
        /\ dict_get m "income_difference" = Some (VFloat 100000)).
Proof.
  intros Hn. split; [|eexists; split; [vm_compute; reflexivity|split; reflexivity]].
  calc_cases salary_data itr_data;
  eexists; (split; [reflexivity|]); simpl; split; intros x; split;
  try discriminate;
  try (intros [? [? ?]]; discriminate);
  try (intros [? [? [? [? ?]]]]; discriminate);
  try (intros H; injection H as <-; eauto);
  try (intros [? [H ->]]; injection H as <-; reflexivity);
  try (intros [? [? [H [H' ->]]]]; injection H as <-; injection H' as <-;
       reflexivity).
Qed.

Lemma income_difference_after_annual_salary_witness :
  (exists m,
     perform_calculations
       [("net_amount", VFloat 50000)] [("total_income", VFloat 700000)]
     = Return m
     /\ (forall a, dict_get m "annual_salary" = Some a <->
           exists n, dict_get [("net_amount", VFloat 50000)] "net_amount"
                       = Some (VFloat n)
                     /\ a = VFloat (n * 12))
     /\ (forall v, dict_get m "income_difference" = Some v <->
           exists ti a,
             dict_get [("total_income", VFloat 700000)] "total_income"
               = Some (VFloat ti)
             /\ dict_get m "annual_salary" = Some (VFloat a)
             /\ v = VFloat (ti - a)))
  /\ (exists m,
        perform_calculations
          [("net_amount", VFloat 50000)] [("total_income", VFloat 700000)]
        = Return m
        /\ dict_get m "annual_salary" = Some (VFloat 600000)
        /\ dict_get m "income_difference" = Some (VFloat 100000)).
Proof.
  apply (income_difference_after_annual_salary
           [("net_amount", VFloat 50000)] [("total_income", VFloat 700000)]).
  reflexivity.
Defined.

(** ** The extractors *)

Lemma py_float_raises_ValueError (s : string) (e : exn) :
  py_float s = Raise e -> e = ValueError.
Proof.
  unfold py_float.
  destruct (match str_strip s with
            | String c r =>
                if Ascii.eqb c "-" then (true, r)
                else if Ascii.eqb c "+" then (false, r)
                else (false, str_strip s)
            | EmptyString => (false, str_strip s)
            end) as [neg body].
  destruct (split_dot body) as [int_part after_dot].
  match goal with |- context [if ?b then _ else _] => destruct b end;
    intros H; [discriminate | now injection H].
Qed.

(** The loop body, one assignment per match. *)
Lemma extract_step_eq (numeric : list string) (text : string) (results : dict)
    (field : string) (pattern : regex) :
  extract_step numeric text results (field, pattern) =
  match re_search pattern text with
  | Some m =>
      g <- str_of (group1 m) ;;
      Return (dict_set results field (stored_value numeric field g))
  | None => Return results
  end.
Proof.
  unfold extract_step, stored_value.
  destruct (re_search pattern text) as [m|]; [|reflexivity].
  destruct (in_list field numeric); destruct (group1 m) as [g|]; simpl;
    try reflexivity.
  destruct (py_float (remove_commas g)) as [f|e] eqn:E; [reflexivity|].
  apply py_float_raises_ValueError in E. subst e. reflexivity.
Qed.

(** The loop over rules that all end with a group: it returns, it adds
    rule names only, and under distinct names each matched rule's entry
    is what its own step stored. *)
Lemma extract_loop (numeric : list string) (text : string)
    (rules : list (string * regex)) :
  (forall item, In item rules -> final_group (snd item) <> None) ->
  forall init : dict,
  exists d,
    for_each rules (extract_step numeric text) init = Return d
    /\ (forall k, In k (dict_keys d) ->
          In k (dict_keys init) \/ In k (map fst rules))
    /\ (forall k, ~ In k (map fst rules) -> dict_get d k = dict_get init k)
    /\ (NoDup (map fst rules) ->
        forall field pattern m g,
          In (field, pattern) rules ->
          re_search pattern text = Some m ->
          group1 m = Some g ->
          dict_get d field = Some (stored_value numeric field g)).
Proof.
  induction rules as [|[f p] rules IH]; intros Hfin init.
  - exists init. simpl. repeat split; auto. intros _ ? ? ? ? [].
  - assert (Hstep : exists init',
               extract_step numeric text init (f, p) = Return init'
               /\ (forall k, In k (dict_keys init') ->
                     k = f \/ In k (dict_keys init))
               /\ (forall k, k <> f -> dict_get init' k = dict_get init k)
               /\ (forall m g, re_search p text = Some m -> group1 m = Some g ->
                     dict_get init' f = Some (stored_value numeric f g))).
    { rewrite extract_step_eq.
      destruct (re_search p text) as [m|] eqn:Es.
      - destruct (final_group p) as [b|] eqn:Eb;
          [|exfalso; apply (Hfin (f, p)); [now left | exact Eb]].
        destruct (re_search_group p b text m Eb Es) as (w & Hw & _).
        rewrite Hw. simpl. eexists. split; [reflexivity|].
        split; [intros k; apply dict_keys_set|].
        split; [intros k Hk; now apply dict_get_set_other|].
        intros m' g' Hm' Hg'. injection Hm' as <-.
        rewrite Hw in Hg'. injection Hg' as <-. apply dict_get_set_same.
      - exists init. split; [reflexivity|]. split; [auto|].
        split; [auto|]. discriminate. }
    destruct Hstep as (init' & Hs & Hkeys & Hother & Hsame).
    destruct (IH (fun item Hi => Hfin item (or_intror Hi)) init')
      as (d & Hd & Hk & Hout & Hin).
    exists d. cbn [for_each]. rewrite Hs. simpl. split; [exact Hd|]. split; [|split].
    + intros k Hkd. destruct (Hk k Hkd) as [H|H]; auto.
      destruct (Hkeys k H) as [->|H']; auto.
    + intros k Hnot. rewrite Hout by tauto. apply Hother.
      intros ->. apply Hnot. now left.
    + intros Hnd field pattern m g [Heq|Hrest] Hm Hg.
      * injection Heq as <- <-. inversion Hnd as [|? ? Hnotin _]; subst.
        rewrite (Hout f Hnotin). eapply Hsame; eauto.
      * inversion Hnd as [|? ? _ Hnd']; subst. eapply Hin; eauto.
Qed.

Lemma rules_end_with_group (dt : document_type) (item : string * regex) :
  In item (rules_of dt) -> final_group (snd item) <> None.
Proof.
  destruct dt; simpl; intros H;
    repeat (destruct H as [<-|H]; [simpl; discriminate|]); destruct H.
Qed.

Lemma rule_names_distinct (dt : document_type) : NoDup (map fst (rules_of dt)).
Proof.
  destruct dt; simpl;
    repeat (constructor; [simpl; intros H;
      repeat (destruct H as [H|H]; [discriminate H|]); exact H|]);
    constructor.
Qed.

Lemma numeric_rule_captures_amount (dt : document_type) (field : string)
    (pattern : regex) :
  In (field, pattern) (rules_of dt) ->
  in_list field (numeric_fields_of dt) = true ->
  final_group pattern = Some amount_body.
Proof.
  destruct dt; simpl; intros H Hn;
    repeat (destruct H as [H|H];
            [injection H as <- <-; first [reflexivity | discriminate Hn]|]);
    destruct H.
Qed.

Lemma extract_eq (dt : document_type) (text : string) :
  extract dt text
  = for_each (rules_of dt) (extract_step (numeric_fields_of dt) text) [].
Proof. destruct dt; reflexivity. Qed.

(** [float] rounds to the nearest binary64, ties to even, and overflows
    to infinity. *)
Example py_float_rounding :
  py_float "0.1" = Return 0x1.999999999999ap-4%float
  /\ py_float "9007199254740993" = Return 9007199254740992%float
  /\ py_float "9007199254740995" = Return 9007199254740996%float
  /\ py_float " -12.50 " = Return (-12.5)%float
  /\ py_float "5." = Return 5%float
  /\ py_float ".5" = Return 0.5%float
  /\ py_float "." = Raise ValueError
  /\ py_float "" = Raise ValueError
  /\ py_float "1.2.3" = Raise ValueError.
Proof. repeat split; vm_compute; reflexivity. Qed.

(** Both extractors return on every text. *)
Lemma extract_returns (dt : document_type) (text : string) :
  exists d, extract dt text = Return d.
Proof.
  rewrite extract_eq.
  destruct (extract_loop (numeric_fields_of dt) text (rules_of dt)
              (rules_end_with_group dt) []) as (d & Hd & _).
  now exists d.
Qed.

(** The argument given to [float] holds digits and dots only. *)
Lemma float_argument_chars (w : string) :
  lang amount_body w ->
  str_forall (fun c => is_digit c || Ascii.eqb c ".") (remove_commas w) = true.
Proof.
  intros L. apply amount_body_chars in L.
  induction w as [|c w IH]; simpl in *; [reflexivity|].
  apply andb_true_iff in L as [Hc Hw].
  destruct (Ascii.eqb c ",") eqn:E; simpl; [auto|].
  rewrite (IH Hw), andb_true_r.
  unfold amount_char in Hc. rewrite E, orb_false_r in Hc. exact Hc.
Qed.

(** C5.  Numeric round trip: in "Basic Salary: Rs. 45,000.50" the rule of
    [basic_salary] captures "45,000.50", the commas are removed, the
    rest parses to the float 45000.50, and the extracted mapping is
    [{basic_salary: 45000.5}]. *)
Theorem basic_salary_round_trip :
  (exists m,
     re_search (currency_pattern ["Basic Salary"; "Basic Pay"; "Basic"])
       "Basic Salary: Rs. 45,000.50" = Some m
     /\ group1 m = Some "45,000.50")
  /\ remove_commas "45,000.50" = "45000.50"
  /\ py_float "45000.50" = Return 45000.50%float
  /\ extract_salary_fields "Basic Salary: Rs. 45,000.50"
     = Return [("basic_salary", VFloat 45000.50)].
Proof.
  split; [eexists; split; vm_compute; reflexivity|].
  repeat split; vm_compute; reflexivity.
Qed.

(** C6.  Coercion fallback: for either document type and every text,
    when the pattern of a numeric field matches and [float] fails on the
    captured group without its commas, the extractor returns (it does
    not raise) and holds the captured string under that field; the code
    stores the group as captured, which is also its trimmed form, a
    captured amount having no white space. *)
Theorem coercion_fallback_keeps_raw_string
    (dt : document_type) (text field : string) (pattern : regex)
    (m : match_object) (g : string) :
  In (field, pattern) (rules_of dt) ->
  in_list field (numeric_fields_of dt) = true ->
  re_search pattern text = Some m ->
  group1 m = Some g ->
  py_float (remove_commas g) = Raise ValueError ->
  exists d, extract dt text = Return d
            /\ dict_get d field = Some (VStr (str_strip g))
            /\ str_strip g = g.
Proof.
  intros Hin Hnum Hs Hg Hf. rewrite extract_eq.
  destruct (extract_loop (numeric_fields_of dt) text (rules_of dt)
              (rules_end_with_group dt) []) as (d & Hd & _ & _ & Hget).
  pose proof (numeric_rule_captures_amount dt field pattern Hin Hnum) as Hb.
  destruct (re_search_group pattern amount_body text m Hb Hs) as (w & Hw & L).
  rewrite Hg in Hw. injection Hw as <-.
  exists d. split; [exact Hd|].
  rewrite (Hget (rule_names_distinct dt) field pattern m g Hin Hs Hg).
  unfold stored_value. rewrite Hnum, Hf, (amount_strip_id g L). auto.
Qed.

Lemma coercion_fallback_keeps_raw_string_witness :
  exists d, extract SalarySlip "Net: ," = Return d
            /\ dict_get d "net_amount" = Some (VStr (str_strip ","))
            /\ str_strip "," = ",".
Proof.
  apply (coercion_fallback_keeps_raw_string SalarySlip "Net: ," "net_amount"
           (currency_pattern
              ["Net Amount"; "Net Salary"; "Net Pay"; "Take Home"; "Total"; "Net"])
           {| group1 := Some "," |} ",").
  - simpl. do 6 right. left. reflexivity.
  - reflexivity.
  - vm_compute. reflexivity.
  - reflexivity.
  - vm_compute. reflexivity.
Defined.

(** C7.  Case-insensitive labels and trimming: "EMPLOYEE NAME: Jane Doe"
    and "employee name : Jane Doe" both extract to
    [{employee_name: "Jane Doe"}]. *)
Theorem employee_name_case_insensitive :
  extract_salary_fields "EMPLOYEE NAME: Jane Doe"
  = Return [("employee_name", VStr "Jane Doe")]
  /\ extract_salary_fields "employee name : Jane Doe"
     = Return [("employee_name", VStr "Jane Doe")].
Proof. split; vm_compute; reflexivity. Qed.

(** C8 (the code departs from the claim).  The claim: the metrics
    [{annual_tax: 6000}] are shown as the row ("Annual Tax",
    "₹ 6,000.00").  The code: the label is "Annual Tax" and the currency
    string is "₹ 6,000.00", but the string is written into the [Value]
    column, a column of floats; a data frame that refuses such a write
    (pandas 3) raises [TypeError] and no table is shown, and one that
    widens the column (pandas before 3) shows the row of the claim. *)
Theorem format_annual_tax :
  format_calculations Strict [("annual_tax", VFloat 6000)] = Raise TypeError
  /\ format_calculations Widening [("annual_tax", VFloat 6000)]
     = Return [("Annual Tax", VStr "₹ 6,000.00")]
  /\ label_of "annual_tax" = "Annual Tax"
  /\ "₹ " ++ format_2f 6000 = "₹ 6,000.00"
  /\ label_of "annual_salary" = "Annual Salary"
  /\ format_2f 1234567.5 = "1,234,567.50".
Proof. repeat split; vm_compute; reflexivity. Qed.

(** C9.  Key-set invariant: on every text the salary extractor returns a
    mapping whose keys are among its eight rule names, and the
    tax-document extractor one whose keys are among its six. *)
Theorem extracted_keys_in_rule_set (text : string) :
  (exists d, extract_salary_fields text = Return d
     /\ forall k, In k (dict_keys d) ->
          In k ["employee_name"; "employee_id"; "basic_salary"; "hra"; "pf";
                "gross_salary"; "net_amount"; "tax_deducted"])
  /\ (exists d, extract_itr_fields text = Return d
        /\ forall k, In k (dict_keys d) ->
             In k ["pan"; "assessment_year"; "total_income"; "taxable_income";
                   "tax_payable"; "tax_paid"]).
Proof.
  split.
  - destruct (extract_loop salary_numeric_fields text salary_patterns
                (rules_end_with_group SalarySlip) []) as (d & Hd & Hk & _).
    exists d. split; [exact Hd|]. intros k H.
    destruct (Hk k H) as [[]|H']. exact H'.
  - destruct (extract_loop itr_numeric_fields text itr_patterns
                (rules_end_with_group TaxReturn) []) as (d & Hd & Hk & _).
    exists d. split; [exact Hd|]. intros k H.
    destruct (Hk k H) as [[]|H']. exact H'.
Qed.

(** C10.  The fallback is reachable: for either document type there is a
    text on which the pattern of a numeric field matches, the captured
    group is made of commas only, so that [float] gets the empty string
    and fails, and the mapping returned holds the captured string under
    that field.  The texts are "Net: ," and "Total Income: ,". *)
Theorem numeric_fallback_reachable (dt : document_type) :
  exists (text field : string) (pattern : regex) (m : match_object)
         (g : string) (d : dict),
    In (field, pattern) (rules_of dt)
    /\ in_list field (numeric_fields_of dt) = true
    /\ re_search pattern text = Some m
    /\ group1 m = Some g
    /\ remove_commas g = ""
    /\ py_float (remove_commas g) = Raise ValueError
    /\ extract dt text = Return d
    /\ dict_get d field = Some (VStr g).
Proof.
  destruct dt.
  - exists "Net: ,", "net_amount",
      (currency_pattern
         ["Net Amount"; "Net Salary"; "Net Pay"; "Take Home"; "Total"; "Net"]),
      {| group1 := Some "," |}, ",", [("net_amount", VStr ",")].
    split; [simpl; do 6 right; left; reflexivity|].
    repeat split; vm_compute; reflexivity.
  - exists "Total Income: ,", "total_income",
      (currency_pattern ["Total Income"; "Gross Total Income"]),
      {| group1 := Some "," |}, ",", [("total_income", VStr ",")].
    split; [simpl; do 2 right; left; reflexivity|].
    repeat split; vm_compute; reflexivity.
Qed.

(** * Further properties *)

(** ** perform_calculations on every input *)

(** Case analysis on the four fields read, a number, a string or
    absent each, and on the guard of rule 3. *)
Ltac calc_all_cases salary_data itr_data :=
  unfold perform_calculations, numeric_inputs, number_or_absent,
    dict_in, dict_getitem in *;
  destruct (dict_get salary_data "net_amount") as [[n|?]|];
  destruct (dict_get salary_data "gross_salary") as [[g0|?]|] eqn:Egross;
  destruct (dict_get salary_data "tax_deducted") as [[t0|?]|] eqn:Etax;
  destruct (dict_get itr_data "total_income") as [[ti|?]|];
  simpl in *;
  try (rewrite float_of_Z_0;
       destruct (0 <? g0)%float eqn:Egt; simpl;
       try (rewrite (float_gt_zero_nonzero _ Egt); simpl)).

(** The call raises exactly in four situations, and then [TypeError]:
    [total_income] is a string; [gross_salary] is a string and
    [tax_deducted] is there; [gross_salary] is a positive number and
    [tax_deducted] a string; [net_amount] is a string and [total_income]
    is there.  It never raises [KeyError] or [ZeroDivisionError]. *)
Theorem perform_calculations_raises_iff (salary_data itr_data : dict) (e : exn) :
  perform_calculations salary_data itr_data = Raise e <->
  e = TypeError
  /\ ((exists s, dict_get itr_data "total_income" = Some (VStr s))
      \/ (exists s, dict_get salary_data "gross_salary" = Some (VStr s)
                    /\ dict_in "tax_deducted" salary_data = true)
      \/ (exists g s, dict_get salary_data "gross_salary" = Some (VFloat g)
                      /\ (0 <? g)%float = true
                      /\ dict_get salary_data "tax_deducted" = Some (VStr s))
      \/ (exists s, dict_get salary_data "net_amount" = Some (VStr s)
                    /\ dict_in "total_income" itr_data = true)).
Proof.
  calc_all_cases salary_data itr_data;
  (split;
   [ intros R;
     first [ discriminate R
           | injection R as <-; split;
             [ reflexivity
             | first
                 [ left; eexists; reflexivity
                 | right; left; eexists; split; reflexivity
                 | do 2 right; left; do 2 eexists;
                   split; [reflexivity | split; [eassumption | reflexivity]]
                 | do 3 right; eexists; split; reflexivity ] ] ]
   | intros [-> [(s' & H)|[(s' & H & H')|[(g' & s' & H & H' & H'')|(s' & H & H')]]]];
     try reflexivity; congruence ]).
Qed.

(** The result depends on four fields only: two pairs of mappings that
    agree on [net_amount], [gross_salary], [tax_deducted] and
    [total_income] give the same outcome. *)
Theorem perform_calculations_reads_four_fields
    (salary1 salary2 itr1 itr2 : dict) :
  dict_get salary1 "net_amount" = dict_get salary2 "net_amount" ->
  dict_get salary1 "gross_salary" = dict_get salary2 "gross_salary" ->
  dict_get salary1 "tax_deducted" = dict_get salary2 "tax_deducted" ->
  dict_get itr1 "total_income" = dict_get itr2 "total_income" ->
  perform_calculations salary1 itr1 = perform_calculations salary2 itr2.
Proof.
  intros Hn Hg Ht Hi.
  unfold perform_calculations, dict_in, dict_getitem.
  rewrite Hn, Hg, Ht, Hi. reflexivity.
Qed.

Lemma perform_calculations_reads_four_fields_witness :
  perform_calculations
    [("employee_name", VStr "Jane Doe"); ("net_amount", VFloat 50000)]
    [("pan", VStr "ABCDE1234F")]
  = perform_calculations [("net_amount", VFloat 50000)] [].
Proof.
  apply (perform_calculations_reads_four_fields
           [("employee_name", VStr "Jane Doe"); ("net_amount", VFloat 50000)]
           [("net_amount", VFloat 50000)]
           [("pan", VStr "ABCDE1234F")] []); reflexivity.
Defined.

(** The metrics come in the order of the five rules, each at most once,
    whatever the inputs. *)
Theorem metrics_in_rule_order (salary_data itr_data m : dict) :
  perform_calculations salary_data itr_data = Return m ->
  dict_keys m
  = filter (fun k => dict_in k m)
      ["annual_salary"; "monthly_income_from_itr"; "tax_percentage";
       "annual_tax"; "income_difference"].
Proof.
  calc_all_cases salary_data itr_data;
    intros R; try discriminate R; injection R as <-; reflexivity.
Qed.

Lemma metrics_in_rule_order_witness :
  dict_keys [("annual_salary", VFloat 600000);
             ("monthly_income_from_itr", VFloat (700000 / 12));
             ("income_difference", VFloat 100000)]
  = filter (fun k => dict_in k [("annual_salary", VFloat 600000);
                                ("monthly_income_from_itr", VFloat (700000 / 12));
                                ("income_difference", VFloat 100000)])
      ["annual_salary"; "monthly_income_from_itr"; "tax_percentage";
       "annual_tax"; "income_difference"].
Proof.
  apply (metrics_in_rule_order
           [("net_amount", VFloat 50000)] [("total_income", VFloat 700000)]).
  vm_compute. reflexivity.
Defined.

(** No metric at all is returned exactly when [net_amount],
    [tax_deducted] and [total_income] are all absent; [gross_salary]
    alone produces nothing. *)
Theorem no_metrics_iff (salary_data itr_data : dict) :
  perform_calculations salary_data itr_data = Return [] <->
  dict_in "net_amount" salary_data = false
  /\ dict_in "tax_deducted" salary_data = false
  /\ dict_in "total_income" itr_data = false.
Proof.
  calc_all_cases salary_data itr_data;
    (split; [intros R; discriminate R || auto
            | intros (H1 & H2 & H3); discriminate || reflexivity]).
Qed.

(** Rules 2 and 4 on numbers: [monthly_income_from_itr] is there exactly
    when [total_income] is and equals [total_income / 12]; [annual_tax]
    is there exactly when [tax_deducted] is and equals
    [tax_deducted * 12], whatever [gross_salary] is. *)
Theorem monthly_income_and_annual_tax (salary_data itr_data : dict) :
  numeric_inputs salary_data itr_data = true ->
  exists m, perform_calculations salary_data itr_data = Return m
    /\ (forall v, dict_get m "monthly_income_from_itr" = Some v <->
          exists ti, dict_get itr_data "total_income" = Some (VFloat ti)
                     /\ v = VFloat (ti / 12))
    /\ (forall v, dict_get m "annual_tax" = Some v <->
          exists t, dict_get salary_data "tax_deducted" = Some (VFloat t)
                    /\ v = VFloat (t * 12)).
Proof.
  intros Hn.
  calc_cases salary_data itr_data;
  eexists; (split; [reflexivity|]); simpl; split; intros x; split;
  try discriminate;
  try (intros [? [? ?]]; discriminate);
  try (intros H; injection H as <-; eauto);
  try (intros [? [H ->]]; injection H as <-; reflexivity).
Qed.

Lemma monthly_income_and_annual_tax_witness :
  exists m,
    perform_calculations
      [("tax_deducted", VFloat 500)] [("total_income", VFloat 700000)]
    = Return m
    /\ (forall v, dict_get m "monthly_income_from_itr" = Some v <->
          exists ti,
            dict_get [("total_income", VFloat 700000)] "total_income"
              = Some (VFloat ti)
            /\ v = VFloat (ti / 12))
    /\ (forall v, dict_get m "annual_tax" = Some v <->
          exists t,
            dict_get [("tax_deducted", VFloat 500)] "tax_deducted"
              = Some (VFloat t)
            /\ v = VFloat (t * 12)).
Proof.
  apply (monthly_income_and_annual_tax
           [("tax_deducted", VFloat 500)] [("total_income", VFloat 700000)]).
  reflexivity.
Defined.

(** The guard of rule 3 on numbers: [tax_percentage] is there exactly
    when both fields are and [gross_salary > 0]; a negative or
    not-a-number [gross_salary] gives no entry, like zero. *)
Theorem tax_percentage_iff_positive_gross (salary_data itr_data : dict) :
  numeric_inputs salary_data itr_data = true ->
  exists m, perform_calculations salary_data itr_data = Return m
    /\ (forall v, dict_get m "tax_percentage" = Some v <->
          exists g t, dict_get salary_data "gross_salary" = Some (VFloat g)
                      /\ dict_get salary_data "tax_deducted" = Some (VFloat t)
                      /\ (0 <? g)%float = true
                      /\ v = VFloat (t / g * 100)).
Proof.
  intros Hn.
  calc_cases salary_data itr_data;
  eexists; (split; [reflexivity|]); simpl; intros x; split;
  try discriminate;
  try (intros (? & ? & ? & ? & ? & ?); congruence);
  try (intros H; injection H as <-; eauto 8);
  try (intros (? & ? & H & H' & _ & ->); injection H as <-; injection H' as <-;
       reflexivity).
Qed.

Lemma tax_percentage_iff_positive_gross_witness :
  exists m,
    perform_calculations
      [("gross_salary", VFloat (-20000)); ("tax_deducted", VFloat 500)] []
    = Return m
    /\ (forall v, dict_get m "tax_percentage" = Some v <->
          exists g t,
            dict_get [("gross_salary", VFloat (-20000));
                      ("tax_deducted", VFloat 500)] "gross_salary"
              = Some (VFloat g)
            /\ dict_get [("gross_salary", VFloat (-20000));
                         ("tax_deducted", VFloat 500)] "tax_deducted"
               = Some (VFloat t)
            /\ (0 <? g)%float = true
            /\ v = VFloat (t / g * 100)).
Proof.
  apply (tax_percentage_iff_positive_gross
           [("gross_salary", VFloat (-20000)); ("tax_deducted", VFloat 500)] []).
  reflexivity.
Defined.

Lemma perform_calculations_returns_witness :
  exists m,
    perform_calculations
      [("gross_salary", VFloat 20000); ("tax_deducted", VFloat 500)]
      [("total_income", VFloat 700000)]
    = Return m.
Proof.
  apply (perform_calculations_returns
           [("gross_salary", VFloat 20000); ("tax_deducted", VFloat 500)]
           [("total_income", VFloat 700000)]).
  reflexivity.
Defined.

Lemma metrics_are_numbers_witness :
  Forall (fun kv => is_number (snd kv) = true)
    [("monthly_income_from_itr", VFloat (700000 / 12));
     ("tax_percentage", VFloat (500 / 20000 * 100));
     ("annual_tax", VFloat (500 * 12))].
Proof.
  apply (metrics_are_numbers
           [("gross_salary", VFloat 20000); ("tax_deducted", VFloat 500)]
           [("total_income", VFloat 700000)]); reflexivity.
Defined.

Lemma metric_present_only_if_inputs_witness :
  ("annual_tax" = "annual_salary"
   /\ dict_in "net_amount" [("tax_deducted", VFloat 500)] = true)
  \/ ("annual_tax" = "monthly_income_from_itr"
      /\ dict_in "total_income" [] = true)
  \/ ("annual_tax" = "tax_percentage"
      /\ dict_in "gross_salary" [("tax_deducted", VFloat 500)] = true
      /\ dict_in "tax_deducted" [("tax_deducted", VFloat 500)] = true)
  \/ ("annual_tax" = "annual_tax"
      /\ dict_in "tax_deducted" [("tax_deducted", VFloat 500)] = true)
  \/ ("annual_tax" = "income_difference"
      /\ dict_in "total_income" [] = true
      /\ dict_in "net_amount" [("tax_deducted", VFloat 500)] = true).
Proof.
  apply (metric_present_only_if_inputs
           [("tax_deducted", VFloat 500)] []
           [("annual_tax", VFloat 6000)] "annual_tax"); reflexivity.
Defined.

(** ** The calculations table *)

Lemma two_digits_shape (r : Z) :
  (0 <= r < 100)%Z ->
  String.length (two_digits r) = 2
  /\ str_forall is_digit (two_digits r) = true.
Proof.
  intros Hr.
  assert (H : forallb
                (fun n => Nat.eqb (String.length (two_digits (Z.of_nat n))) 2
                          && str_forall is_digit (two_digits (Z.of_nat n)))
                (List.seq 0 100) = true) by (vm_compute; reflexivity).
  rewrite forallb_forall in H.
  specialize (H (Z.to_nat r)). rewrite Z2Nat.id in H by lia.
  assert (Hin : In (Z.to_nat r) (List.seq 0 100)) by (apply in_seq; lia).
  apply H in Hin. apply andb_true_iff in Hin as [H1 H2].
  apply Nat.eqb_eq in H1. auto.
Qed.

(** A number is shown as [nan], [inf], [-inf], or with exactly two
    digits after the dot. *)
Theorem format_2f_two_decimals (x : float) :
  format_2f x = "nan" \/ format_2f x = "inf" \/ format_2f x = "-inf"
  \/ exists a dd, format_2f x = a ++ "." ++ dd
                  /\ String.length dd = 2
                  /\ str_forall is_digit dd = true.
Proof.
  unfold format_2f. destruct (Prim2SF x) as [s|s| |s m e].
  - do 3 right. exists ((if s then "-" else "") ++ "0"), "00".
    destruct s; repeat split; reflexivity.
  - destruct s; auto.
  - auto.
  - do 3 right. cbv zeta.
    match goal with
    | |- exists a dd, ?sg ++ ?grp ++ "." ++ two_digits ?r = _ /\ _ =>
        exists (sg ++ grp), (two_digits r); split;
        [symmetry; apply str_app_assoc | apply two_digits_shape]
    end.
    apply Z.mod_pos_bound. lia.
Qed.

Lemma remove_commas_rev_onto (s acc : string) :
  remove_commas (str_rev_onto s acc)
  = str_rev_onto (remove_commas s) (remove_commas acc).
Proof.
  revert acc. induction s as [|c s IH]; intros acc; simpl; [reflexivity|].
  rewrite IH. simpl. destruct (Ascii.eqb c ","); reflexivity.
Qed.

Lemma remove_commas_id (s : string) :
  str_forall (fun c => negb (Ascii.eqb c ",")) s = true -> remove_commas s = s.
Proof.
  induction s as [|c s IH]; simpl; [reflexivity|].
  intros H. apply andb_true_iff in H as [Hc Hs].
  apply negb_true_iff in Hc. rewrite Hc, (IH Hs). reflexivity.
Qed.

Lemma remove_commas_group3 (s : string) (i : nat) :
  str_forall (fun c => negb (Ascii.eqb c ",")) s = true ->
  remove_commas (group3_rev s i) = s.
Proof.
  revert i. induction s as [|c s IH]; intros i; simpl; [reflexivity|].
  intros H. apply andb_true_iff in H as [Hc Hs].
  apply negb_true_iff in Hc.
  destruct (Nat.eqb i 3); simpl; rewrite Hc, (IH _ Hs); reflexivity.
Qed.

(** Grouping by thousands only adds commas: taking the commas out, as
    the extractors do, gives the digits back. *)
Theorem group_thousands_remove_commas (digits : string) :
  str_forall (fun c => negb (Ascii.eqb c ",")) digits = true ->
  remove_commas (group_thousands digits) = digits.
Proof.
  intros H. unfold group_thousands, str_rev.
  rewrite remove_commas_rev_onto. simpl.
  rewrite remove_commas_group3.
  - apply str_rev_involutive.
  - rewrite str_forall_rev_onto, H. reflexivity.
Qed.

Lemma group_thousands_remove_commas_witness :
  remove_commas (group_thousands "1234567") = "1234567".
Proof.
  apply (group_thousands_remove_commas "1234567"). reflexivity.
Defined.

Lemma str_forall_map (p q : ascii -> bool) (f : ascii -> ascii) (s : string) :
  (forall c, p c = true -> q (f c) = true) ->
  str_forall p s = true -> str_forall q (str_map f s) = true.
Proof.
  intros Hf. induction s as [|c s IH]; simpl; [reflexivity|].
  intros H. apply andb_true_iff in H as [Hc Hs].
  rewrite (Hf c Hc), (IH Hs). reflexivity.
Qed.

Lemma to_upper_not_underscore (c : ascii) :
  negb (Ascii.eqb c "_") = true -> negb (Ascii.eqb (to_upper c) "_") = true.
Proof. destruct c as [[] [] [] [] [] [] [] []]; vm_compute; congruence. Qed.

Lemma to_lower_not_underscore (c : ascii) :
  negb (Ascii.eqb c "_") = true -> negb (Ascii.eqb (to_lower c) "_") = true.
Proof. destruct c as [[] [] [] [] [] [] [] []]; vm_compute; congruence. Qed.

Lemma str_split_no_sep (sep : ascii) (s : string) :
  Forall (fun w => str_forall (fun c => negb (Ascii.eqb c sep)) w = true)
    (str_split sep s).
Proof.
  induction s as [|c s IH]; simpl.
  - repeat constructor.
  - destruct (Ascii.eqb c sep) eqn:E.
    + constructor; [reflexivity | exact IH].
    + destruct (str_split sep s) as [|w ws].
      * repeat constructor. simpl. now rewrite E.
      * inversion IH as [|? ? Hw Hws]; subst.
        constructor; [simpl; now rewrite E, Hw | exact Hws].
Qed.

Lemma str_join_forall (p : ascii -> bool) (sep : string) (ws : list string) :
  str_forall p sep = true ->
  Forall (fun w => str_forall p w = true) ws ->
  str_forall p (str_join sep ws) = true.
Proof.
  intros Hsep H. induction H as [|w ws Hw Hws IH]; [reflexivity|].
  simpl. destruct ws as [|w' ws']; [exact Hw|].
  rewrite !str_forall_app, Hw, Hsep. exact IH.
Qed.

(** A label has no underscore left. *)
Theorem label_of_no_underscore (x : string) :
  str_forall (fun c => negb (Ascii.eqb c "_")) (label_of x) = true.
Proof.
  unfold label_of. apply str_join_forall; [reflexivity|].
  apply Forall_map.
  eapply Forall_impl; [|apply (str_split_no_sep "_" x)].
  intros w Hw. destruct w as [|c w]; [reflexivity|].
  simpl in *. apply andb_true_iff in Hw as [Hc Hw].
  rewrite (to_upper_not_underscore c Hc). simpl.
  exact (str_forall_map _ _ to_lower w to_lower_not_underscore Hw).
Qed.

(** The loop over the rows raises exactly when the frame is strict, the
    column holds floats and a row holds a number; otherwise every write
    is taken. *)
Lemma format_rows_cases (policy : frame_policy) (rows : list (string * value))
    (column : dtype) :
  format_rows policy (map (fun kv => (label_of (fst kv), snd kv)) rows) column
  = match policy, column with
    | Strict, Float64 =>
        if existsb (fun kv => is_number (snd kv)) rows then Raise TypeError
        else Return (formatted_rows rows)
    | _, _ => Return (formatted_rows rows)
    end.
Proof.
  assert (Hobj : forall rows',
             format_rows policy
               (map (fun kv => (label_of (fst kv), snd kv)) rows') Object
             = Return (formatted_rows rows')).
  { induction rows' as [|[k v] rows' IH]; [reflexivity|].
    simpl. destruct v; simpl; rewrite IH; destruct policy; reflexivity. }
  destruct column; [|destruct policy; apply Hobj].
  destruct policy.
  - induction rows as [|[k v] rows IH]; [reflexivity|].
    simpl. destruct v; simpl; [now rewrite Hobj | now rewrite IH].
  - induction rows as [|[k v] rows IH]; [reflexivity|].
    simpl. destruct v; simpl; [reflexivity|].
    rewrite IH.
    destruct (existsb (fun kv => is_number (snd kv)) rows); reflexivity.
Qed.

Lemma format_calculations_eq (policy : frame_policy) (data : dict) :
  format_calculations policy data
  = match policy, column_dtype data with
    | Strict, Float64 =>
        if dict_nonempty data then Raise TypeError
        else Return (formatted_rows data)
    | _, _ => Return (formatted_rows data)
    end.
Proof.
  unfold format_calculations. rewrite map_map.
  rewrite (map_ext (fun x : string * value =>
                      let '(k, v) := let '(k, v) := x in (k, v) in
                      (label_of k, v))
                   (fun kv => (label_of (fst kv), snd kv)))
    by (intros [k v]; reflexivity).
  rewrite format_rows_cases.
  destruct policy; [reflexivity|].
  unfold column_dtype.
  destruct (forallb (fun kv => is_number (snd kv)) data) eqn:E; [|reflexivity].
  destruct data as [|[k v] data]; [reflexivity|].
  simpl in *. apply andb_true_iff in E as [Hv _]. now rewrite Hv.
Qed.

(** Formatting the table raises exactly when the data frame refuses a
    string in a column of floats and the metrics, at least one, are all
    numbers, and then [TypeError]; a mapping that holds a string metric
    is always formatted.  When the table is formatted it has one row per
    metric, in the same order, labelled by the metric's name; every cell
    is a string, and a value that is already a string is shown as it
    is. *)
Theorem format_calculations_rows (policy : frame_policy) (data : dict) :
  (forall e, format_calculations policy data = Raise e <->
             e = TypeError /\ policy = Strict /\ data <> []
             /\ Forall (fun kv => is_number (snd kv) = true) data)
  /\ (forall rows, format_calculations policy data = Return rows ->
        map fst rows = map label_of (dict_keys data)
        /\ Forall (fun row => is_number (snd row) = false) rows
        /\ (forall k s, In (k, VStr s) data -> In (label_of k, VStr s) rows)).
Proof.
  rewrite format_calculations_eq. unfold column_dtype. split.
  - intros e.
    destruct (forallb (fun kv => is_number (snd kv)) data) eqn:E.
    + assert (HF : Forall (fun kv => is_number (snd kv) = true) data)
        by (apply Forall_forall; rewrite forallb_forall in E; exact E).
      destruct policy, data as [|kv data]; simpl; split;
        try discriminate;
        try (intros (_ & H & _); discriminate H);
        try (intros (_ & _ & H & _); congruence).
      * intros H. injection H as <-. repeat split; [discriminate | exact HF].
      * intros (-> & _). reflexivity.
    + assert (HF : ~ Forall (fun kv => is_number (snd kv) = true) data).
      { intros HF. rewrite Forall_forall in HF.
        assert (forallb (fun kv => is_number (snd kv)) data = true)
          by (apply forallb_forall; exact HF). congruence. }
      destruct policy; split; try discriminate; intros (_ & _ & _ & H); tauto.
  - intros rows Hr.
    assert (Hrows : rows = formatted_rows data).
    { destruct policy; [now injection Hr|].
      destruct (forallb (fun kv => is_number (snd kv)) data);
        [destruct (dict_nonempty data); [discriminate|]|]; now injection Hr. }
    subst rows. unfold formatted_rows, dict_keys. rewrite !map_map.
    repeat split.
    + apply Forall_map, Forall_forall. intros [k v] _. destruct v; reflexivity.
    + intros k s H.
      apply (in_map (fun kv : string * value =>
                       (label_of (fst kv),
                        match snd kv with
                        | VFloat x => VStr ("₹ " ++ format_2f x)
                        | VStr s0 => VStr s0
                        end))) in H. exact H.
Qed.

(** ** The matcher finds every match *)

Lemma star_match_complete {A : Type} (p : ascii -> bool) (w s' : string)
    (k : string -> option A) :
  str_forall p w = true -> k s' <> None -> star_match p (w ++ s') k <> None.
Proof.
  intros Hw Hk. induction w as [|c w IH]; simpl in *.
  - destruct s' as [|c s'']; simpl; [exact Hk|].
    destruct (p c); [|exact Hk].
    destruct (star_match p s'' k); [discriminate | exact Hk].
  - apply andb_true_iff in Hw as [Hc Hw]. rewrite Hc.
    destruct (star_match p (w ++ s') k) eqn:E; [discriminate|].
    exfalso. exact (IH Hw eq_refl).
Qed.

(** If a string of the pattern starts the text and the continuation
    accepts what follows, the matcher returns a match. *)
Lemma rmatch_complete {A : Type} (r : regex) :
  forall (w s' : string) (g : option string)
         (k : string -> option string -> option A),
    lang r w -> (forall g', k s' g' <> None) ->
    rmatch r (w ++ s') g k <> None.
Proof.
  induction r as [|p|r1 IH1 r2 IH2|r1 IH1 r2 IH2|p|r1 IH1];
    intros w s' g k L Hk; simpl in L.
  - subst w. simpl. apply Hk.
  - destruct L as (c & -> & Hc). simpl. rewrite Hc. apply Hk.
  - destruct L as (u & v & -> & L1 & L2). rewrite str_app_assoc. simpl.
    apply IH1; [exact L1|]. intros g'. apply IH2; assumption.
  - simpl. destruct (rmatch r1 (w ++ s') g k) eqn:E; [discriminate|].
    destruct L as [L|L].
    + exfalso. exact (IH1 w s' g k L Hk E).
    + apply IH2; assumption.
  - simpl. apply star_match_complete; [exact L | apply Hk].
  - simpl. apply IH1; [exact L|]. intros g'. apply Hk.
Qed.

(** [re.search] finds a match exactly when some part of the text is a
    string of the pattern. *)
Lemma re_search_iff_lang (r : regex) (text : string) :
  re_search r text <> None <->
  exists pre w post, text = pre ++ w ++ post /\ lang r w.
Proof.
  split.
  - induction text as [|c text IH]; simpl.
    + destruct (re_match_here r "") as [m|] eqn:E; [|congruence].
      intros _. apply rmatch_sound in E as (w & s' & g' & Hs & L & _).
      exists "", w, s'. auto.
    + destruct (re_match_here r (String c text)) as [m|] eqn:E.
      * intros _. apply rmatch_sound in E as (w & s' & g' & Hs & L & _).
        exists "", w, s'. auto.
      * intros H. destruct (IH H) as (pre & w & post & -> & L).
        exists (String c pre), w, post. auto.
  - intros (pre & w & post & -> & L).
    induction pre as [|c pre IH]; simpl.
    + assert (H : re_match_here r (w ++ post) <> None).
      { unfold re_match_here. apply rmatch_complete; [exact L|]. discriminate. }
      destruct (w ++ post); simpl;
        destruct (re_match_here r _); congruence.
    + destruct (re_match_here r (String c (pre ++ w ++ post)));
        [discriminate | exact IH].
Qed.

(** ** The extractors on every text *)

Lemma dict_keys_set_new (d : dict) (k : string) (v : value) :
  ~ In k (dict_keys d) -> dict_keys (dict_set d k v) = (dict_keys d ++ [k])%list.
Proof.
  unfold dict_keys. induction d as [|[k0 v0] d IH]; simpl; [reflexivity|].
  intros H. destruct (String.eqb_spec k k0) as [->|Hk]; [tauto|].
  simpl. rewrite IH by tauto. reflexivity.
Qed.

Lemma dict_in_keys (d : dict) (k : string) :
  dict_in k d = true <-> In k (dict_keys d).
Proof.
  unfold dict_in, dict_keys. induction d as [|[k0 v0] d IH]; simpl.
  - split; [discriminate | tauto].
  - destruct (String.eqb_spec k k0) as [->|Hk].
    + split; auto.
    + rewrite IH. split; [auto | intros [H|H]; [congruence | exact H]].
Qed.

Lemma dict_get_in (d : dict) (k : string) (v : value) :
  dict_get d k = Some v -> dict_in k d = true.
Proof. unfold dict_in. intros ->. reflexivity. Qed.

Lemma NoDup_fst_functional {A B : Type} (l : list (A * B)) (k : A) (a b : B) :
  NoDup (map fst l) -> In (k, a) l -> In (k, b) l -> a = b.
Proof.
  induction l as [|[k0 v0] l IH]; simpl; [tauto|].
  intros Hnd Ha Hb. inversion Hnd as [|? ? Hnot Hnd']; subst.
  destruct Ha as [Ha|Ha], Hb as [Hb|Hb].
  - congruence.
  - injection Ha as -> ->. exfalso. apply Hnot.
    apply (in_map fst) in Hb. exact Hb.
  - injection Hb as -> ->. exfalso. apply Hnot.
    apply (in_map fst) in Ha. exact Ha.
  - eauto.
Qed.

(** The loop adds, in order, the names of the rules that match. *)
Lemma extract_loop_keys (numeric : list string) (text : string)
    (rules : list (string * regex)) :
  (forall item, In item rules -> final_group (snd item) <> None) ->
  NoDup (map fst rules) ->
  forall init d : dict,
    (forall k, In k (map fst rules) -> ~ In k (dict_keys init)) ->
    for_each rules (extract_step numeric text) init = Return d ->
    dict_keys d
    = (dict_keys init ++ map fst (filter (rule_matches text) rules))%list.
Proof.
  induction rules as [|[f p] rules IH]; intros Hfin Hnd init d Hfresh.
  - simpl. intros H. injection H as <-. now rewrite app_nil_r.
  - cbn [for_each]. rewrite extract_step_eq.
    inversion Hnd as [|? ? Hnot Hnd']; subst.
    assert (Hfin' : forall item, In item rules -> final_group (snd item) <> None)
      by (intros item Hi; apply Hfin; now right).
    unfold rule_matches at 1. cbn [filter snd].
    destruct (re_search p text) as [m|] eqn:Es.
    + destruct (final_group p) as [b|] eqn:Eb;
        [|exfalso; apply (Hfin (f, p)); [now left | exact Eb]].
      destruct (re_search_group p b text m Eb Es) as (w & Hw & _).
      rewrite Hw. cbn [str_of bind]. intros H.
      apply IH in H; auto.
      * rewrite H, dict_keys_set_new by (apply Hfresh; now left).
        rewrite <- app_assoc. reflexivity.
      * intros k Hk Hin. apply dict_keys_set in Hin as [->|Hin].
        -- exact (Hnot Hk).
        -- apply (Hfresh k); [now right | exact Hin].
    + cbn [bind]. intros H. apply IH in H; auto.
      intros k Hk. apply Hfresh. now right.
Qed.

(** The keys of the mapping returned are the names of the rules whose
    pattern matches the text, in the order of the rules. *)
Theorem extracted_keys_are_matching_rules (dt : document_type) (text : string) :
  exists d, extract dt text = Return d
    /\ dict_keys d = map fst (filter (rule_matches text) (rules_of dt)).
Proof.
  destruct (extract_returns dt text) as (d & Hd). exists d.
  split; [exact Hd|]. rewrite extract_eq in Hd.
  apply extract_loop_keys in Hd.
  - exact Hd.
  - apply rules_end_with_group.
  - apply rule_names_distinct.
  - intros k _ [].
Qed.

(** A field is in the mapping exactly when its pattern finds a match. *)
Lemma field_present_iff_match (dt : document_type) (text field : string)
    (pattern : regex) (d : dict) :
  In (field, pattern) (rules_of dt) ->
  extract dt text = Return d ->
  (dict_in field d = true <-> re_search pattern text <> None).
Proof.
  intros Hin Hd. rewrite extract_eq in Hd.
  apply extract_loop_keys in Hd;
    [|apply rules_end_with_group|apply rule_names_distinct|intros k _ []].
  rewrite dict_in_keys, Hd. simpl. rewrite in_map_iff. split.
  - intros ([f p] & Hf & Hp). simpl in Hf. subst f.
    apply filter_In in Hp as [Hp Hm].
    rewrite (NoDup_fst_functional _ _ _ _ (rule_names_distinct dt) Hin Hp).
    unfold rule_matches in Hm. simpl in Hm.
    destruct (re_search p text); [discriminate | discriminate Hm].
  - intros H. exists (field, pattern). split; [reflexivity|].
    apply filter_In. split; [exact Hin|]. unfold rule_matches. simpl.
    destruct (re_search pattern text); [reflexivity | congruence].
Qed.

(** On a text of ASCII characters a field is extracted exactly when some
    part of the text is a string of its pattern: the order in which the matcher tries alternatives and
    repetitions decides the value captured, never whether the field is
    found. *)
Theorem field_present_iff_text_has_match (dt : document_type)
    (text field : string) (pattern : regex) :
  ascii_text text = true ->
  In (field, pattern) (rules_of dt) ->
  exists d, extract dt text = Return d
    /\ (dict_in field d = true <->
        exists pre w post, text = pre ++ w ++ post /\ lang pattern w).
Proof.
  intros _ Hin. destruct (extract_returns dt text) as (d & Hd). exists d.
  split; [exact Hd|].
  rewrite (field_present_iff_match dt text field pattern d Hin Hd).
  apply re_search_iff_lang.
Qed.

Lemma field_present_iff_text_has_match_witness :
  exists d, extract TaxReturn "PAN ABCDE1234F" = Return d
    /\ (dict_in "pan" d = true <->
        exists pre w post,
          "PAN ABCDE1234F" = pre ++ w ++ post
          /\ lang (text_pattern ["PAN"; "Permanent Account Number"] (plus alnum)) w).
Proof.
  apply (field_present_iff_text_has_match TaxReturn "PAN ABCDE1234F" "pan").
  - reflexivity.
  - simpl. left. reflexivity.
Defined.

Lemma extracted_key_is_rule (dt : document_type) (text field : string)
    (d : dict) :
  extract dt text = Return d ->
  In field (dict_keys d) ->
  exists pattern, In (field, pattern) (rules_of dt).
Proof.
  intros Hd Hf. rewrite extract_eq in Hd.
  apply extract_loop_keys in Hd;
    [|apply rules_end_with_group|apply rule_names_distinct|intros k _ []].
  rewrite Hd in Hf. simpl in Hf.
  apply in_map_iff in Hf as ([f p] & Hfp & Hin). simpl in Hfp. subst f.
  apply filter_In in Hin as [Hin _]. now exists p.
Qed.

(** Text around a document never hides a field: a field extracted from
    a text is still extracted when more text comes before and after it
    (its value may then be another). *)
Theorem field_survives_surrounding_text (dt : document_type)
    (text before after field : string) (d : dict) :
  extract dt text = Return d ->
  dict_in field d = true ->
  exists d', extract dt (before ++ text ++ after) = Return d'
             /\ dict_in field d' = true.
Proof.
  intros Hd Hf.
  destruct (extract_returns dt (before ++ text ++ after)) as (d' & Hd').
  exists d'. split; [exact Hd'|].
  destruct (extracted_key_is_rule dt text field d Hd)
    as (pattern & Hin); [now apply dict_in_keys|].
  apply (field_present_iff_match dt _ field pattern d' Hin Hd').
  apply (field_present_iff_match dt _ field pattern d Hin Hd) in Hf.
  apply re_search_iff_lang in Hf as (pre & w & post & -> & L).
  apply re_search_iff_lang.
  exists (before ++ pre), w, (post ++ after).
  split; [|exact L]. now rewrite !str_app_assoc.
Qed.

Lemma field_survives_surrounding_text_witness :
  exists d', extract SalarySlip ("Payslip " ++ "Net Pay: 1,800" ++ " INR")
             = Return d'
             /\ dict_in "net_amount" d' = true.
Proof.
  apply (field_survives_surrounding_text SalarySlip "Net Pay: 1,800"
           "Payslip " " INR" "net_amount" [("net_amount", VFloat 1800)]).
  - vm_compute. reflexivity.
  - reflexivity.
Defined.

(** ** What the extractors store *)

Lemma all_ascii_complete (c : ascii) : In c all_ascii.
Proof.
  unfold all_ascii. rewrite <- (ascii_nat_embedding c).
  apply in_map. apply in_seq. pose proof (nat_ascii_bounded c). lia.
Qed.

Lemma forall_ascii (p : ascii -> bool) :
  forallb p all_ascii = true -> forall c, p c = true.
Proof.
  intros H c. rewrite forallb_forall in H. apply H, all_ascii_complete.
Qed.

(** Under IGNORECASE a literal that is not a letter is matched by
    itself only. *)
Lemma chr_not_letter (c c0 : ascii) :
  is_alpha c0 = false ->
  Ascii.eqb (to_lower c) (to_lower c0) = true -> c = c0.
Proof.
  intros Ha He.
  assert (H : forallb
                (fun x => forallb
                   (fun y => implb (negb (is_alpha y)
                                    && Ascii.eqb (to_lower x) (to_lower y))
                                   (Ascii.eqb x y)) all_ascii)
                all_ascii = true) by (vm_compute; reflexivity).
  pose proof (forall_ascii _ (forall_ascii _ H c) c0) as Hc.
  cbv beta in Hc. rewrite Ha, He in Hc. simpl in Hc.
  now apply Ascii.eqb_eq.
Qed.

(** What a loop that returned holds under a field comes from a match of
    the field's rule. *)
Lemma extract_lookup (dt : document_type) (text field : string) (d : dict)
    (v : value) :
  extract dt text = Return d ->
  dict_get d field = Some v ->
  exists pattern m g b,
    In (field, pattern) (rules_of dt)
    /\ re_search pattern text = Some m
    /\ group1 m = Some g
    /\ final_group pattern = Some b
    /\ lang b g
    /\ v = stored_value (numeric_fields_of dt) field g.
Proof.
  intros Hd Hv.
  destruct (extracted_key_is_rule dt text field d Hd) as (pattern & Hin).
  { apply dict_in_keys. now apply (dict_get_in d field v). }
  pose proof (proj1 (field_present_iff_match dt text field pattern d Hin Hd)
                (dict_get_in d field v Hv)) as Hm.
  destruct (re_search pattern text) as [m|] eqn:Es; [|congruence].
  destruct (final_group pattern) as [b|] eqn:Eb;
    [|exfalso; exact (rules_end_with_group dt (field, pattern) Hin Eb)].
  destruct (re_search_group pattern b text m Eb Es) as (g & Hg & L).
  exists pattern, m, g, b. repeat split; auto.
  rewrite extract_eq in Hd.
  destruct (extract_loop (numeric_fields_of dt) text (rules_of dt)
              (rules_end_with_group dt) []) as (d0 & Hd0 & _ & _ & Hget).
  rewrite Hd in Hd0. injection Hd0 as <-.
  rewrite (Hget (rule_names_distinct dt) field pattern m g Hin Es Hg) in Hv.
  now injection Hv.
Qed.

Lemma remove_commas_app (a b : string) :
  remove_commas (a ++ b) = remove_commas a ++ remove_commas b.
Proof.
  induction a as [|c a IH]; simpl; [reflexivity|].
  destruct (Ascii.eqb c ","); simpl; now rewrite IH.
Qed.

Lemma digit_not_comma (c : ascii) :
  is_digit c = true -> negb (Ascii.eqb c ",") = true.
Proof. destruct c as [[] [] [] [] [] [] [] []]; vm_compute; congruence. Qed.

Lemma digit_not_dot (c : ascii) : is_digit c = true -> Ascii.eqb c "." = false.
Proof. destruct c as [[] [] [] [] [] [] [] []]; vm_compute; congruence. Qed.

Lemma digit_or_dot_not_sign (c : ascii) :
  is_digit c || Ascii.eqb c "." = true ->
  Ascii.eqb c "-" = false /\ Ascii.eqb c "+" = false
  /\ negb (is_space c) = true.
Proof. destruct c as [[] [] [] [] [] [] [] []]; vm_compute; auto; congruence. Qed.

(** The digits left of a run of digits and commas; the run has no digit
    exactly when nothing is left. *)
Lemma remove_commas_run (u : string) :
  str_forall digit_or_comma u = true ->
  str_forall is_digit (remove_commas u) = true
  /\ (str_forall (fun c => negb (is_digit c)) u = true <-> remove_commas u = "").
Proof.
  induction u as [|c u IH]; simpl; [intros _; split; [|split]; reflexivity|].
  intros H. apply andb_true_iff in H as [Hc Hu].
  destruct (IH Hu) as [Hd Hiff]. unfold digit_or_comma in Hc.
  destruct (Ascii.eqb c ",") eqn:Ec.
  - apply Ascii.eqb_eq in Ec. subst c. simpl. auto.
  - rewrite orb_false_r in Hc. simpl. rewrite Hc, Hd. simpl.
    split; [reflexivity|]. split; discriminate.
Qed.

Lemma split_dot_digits (D rest : string) :
  str_forall is_digit D = true ->
  split_dot (D ++ rest) = (D ++ fst (split_dot rest), snd (split_dot rest)).
Proof.
  induction D as [|c D IH]; simpl.
  - intros _. now destruct (split_dot rest).
  - intros H. apply andb_true_iff in H as [Hc HD].
    rewrite (digit_not_dot c Hc), (IH HD). reflexivity.
Qed.

Lemma split_dot_all_digits (D : string) :
  str_forall is_digit D = true -> split_dot D = (D, None).
Proof.
  intros H. rewrite <- (str_app_nil_r D) at 1.
  rewrite (split_dot_digits D "" H). simpl. now rewrite str_app_nil_r.
Qed.

(** [float] accepts digits, an optional dot, digits, as soon as there is
    one digit. *)
Lemma py_float_plain_decimal (D1 v1 v2 : string) :
  str_forall is_digit D1 = true ->
  str_forall is_digit v2 = true ->
  v1 = "" \/ v1 = "." ->
  D1 ++ v2 <> "" ->
  exists f, py_float (D1 ++ v1 ++ v2) = Return f.
Proof.
  intros H1 H2 Hv1 Hne.
  assert (Hclean : str_forall (fun c => is_digit c || Ascii.eqb c ".")
                     (D1 ++ v1 ++ v2) = true).
  { rewrite !str_forall_app.
    rewrite (str_forall_impl is_digit _ D1), (str_forall_impl is_digit _ v2);
      auto; try (intros c ->; reflexivity).
    destruct Hv1 as [->| ->]; reflexivity. }
  assert (Hnonempty : D1 ++ v1 ++ v2 <> "").
  { destruct D1; [|discriminate]. destruct Hv1 as [->| ->]; [|discriminate].
    exact Hne. }
  unfold py_float.
  rewrite str_strip_id
    by (apply (str_forall_impl _ _ _ (fun c H => proj2 (proj2 (digit_or_dot_not_sign c H))));
        exact Hclean).
  remember (D1 ++ v1 ++ v2) as s eqn:Es.
  destruct s as [|c r]; [congruence|].
  simpl in Hclean. apply andb_true_iff in Hclean as [Hc _].
  destruct (digit_or_dot_not_sign c Hc) as (Em & Ep & _).
  cbv beta iota zeta. rewrite Em, Ep. rewrite Es.
  destruct Hv1 as [->| ->].
  - change (D1 ++ "" ++ v2) with (D1 ++ v2).
    rewrite split_dot_all_digits by (rewrite str_forall_app, H1, H2; reflexivity).
    cbv beta iota zeta.
    rewrite str_forall_app, H1, H2. simpl.
    destruct (D1 ++ v2) eqn:E; [congruence|]. simpl. eexists. reflexivity.
  - rewrite (split_dot_digits D1 _ H1). simpl.
    rewrite str_app_nil_r, H1, H2. simpl.
    destruct D1 as [|c1 D1']; simpl.
    + destruct v2 as [|c2 v2']; [simpl in Hne; congruence|].
      simpl. eexists. reflexivity.
    + eexists. reflexivity.
Qed.

(** On a captured amount [float] fails exactly when there is no digit. *)
Lemma py_float_amount (w : string) :
  lang amount_body w ->
  (exists f, py_float (remove_commas w) = Return f)
  \/ (py_float (remove_commas w) = Raise ValueError
      /\ str_forall (fun c => negb (is_digit c)) w = true).
Proof.
  simpl. intros (u & v & -> & (u1 & u2 & -> & (c & -> & Hc) & Hu2)
                 & (v1 & v2 & -> & Hv1 & Hv2)).
  assert (HU : str_forall digit_or_comma (String c "" ++ u2) = true)
    by (simpl; now rewrite Hc, Hu2).
  destruct (remove_commas_run _ HU) as [HD Hno].
  assert (Hv1' : v1 = "" \/ v1 = ".").
  { destruct Hv1 as [(x & -> & Hx)| ->]; [right|now left].
    apply chr_not_letter in Hx; [now subst x | reflexivity]. }
  assert (Ev : remove_commas (v1 ++ v2) = v1 ++ v2).
  { rewrite remove_commas_app.
    rewrite (remove_commas_id v2)
      by (apply (str_forall_impl is_digit); [apply digit_not_comma | exact Hv2]).
    destruct Hv1' as [->| ->]; reflexivity. }
  rewrite remove_commas_app, Ev.
  destruct (remove_commas (String c "" ++ u2)) as [|d D] eqn:ED.
  - destruct v2 as [|d2 v2'].
    + right. split.
      * destruct Hv1' as [->| ->]; vm_compute; reflexivity.
      * rewrite str_forall_app, (proj2 Hno eq_refl).
        destruct Hv1' as [->| ->]; reflexivity.
    + left. apply (py_float_plain_decimal "" v1 (String d2 v2'));
        auto; discriminate.
  - left. apply (py_float_plain_decimal (String d D) v1 v2); auto; discriminate.
Qed.

Lemma amount_body_nonempty (w : string) : lang amount_body w -> w <> "".
Proof.
  simpl. intros (u & v & -> & (u1 & u2 & -> & (c & -> & _) & _) & _).
  discriminate.
Qed.

(** What is stored under a numeric field is a float, or else a
    non-empty string of commas and dots: the fallback never holds a
    digit. *)
Theorem numeric_field_value (dt : document_type) (text field : string)
    (d : dict) (v : value) :
  extract dt text = Return d ->
  in_list field (numeric_fields_of dt) = true ->
  dict_get d field = Some v ->
  (exists f, v = VFloat f)
  \/ (exists s, v = VStr s /\ s <> ""
        /\ str_forall (fun c => Ascii.eqb c "," || Ascii.eqb c ".") s = true).
Proof.
  intros Hd Hnum Hv.
  destruct (extract_lookup dt text field d v Hd Hv)
    as (pattern & m & g & b & Hin & Hs & Hg & Hb & L & ->).
  rewrite (numeric_rule_captures_amount dt field pattern Hin Hnum) in Hb.
  injection Hb as <-.
  unfold stored_value. rewrite Hnum.
  destruct (py_float_amount g L) as [(f & ->)|(-> & Hno)].
  - left. now exists f.
  - right. exists g. split; [reflexivity|].
    split; [now apply amount_body_nonempty|].
    pose proof (amount_body_chars g L) as Hch.
    clear - Hch Hno. induction g as [|c g IH]; [reflexivity|].
    simpl in *. apply andb_true_iff in Hch as [Hc Hch].
    apply andb_true_iff in Hno as [Hn Hno].
    rewrite (IH Hno Hch), andb_true_r.
    unfold amount_char in Hc. apply negb_true_iff in Hn.
    rewrite Hn in Hc. exact Hc.
Qed.

Lemma numeric_field_value_witness :
  (exists f, VFloat 1800 = VFloat f)
  \/ (exists s, VFloat 1800 = VStr s /\ s <> ""
        /\ str_forall (fun c => Ascii.eqb c "," || Ascii.eqb c ".") s = true).
Proof.
  apply (numeric_field_value SalarySlip "Net Pay: 1,800" "net_amount"
           [("net_amount", VFloat 1800)] (VFloat 1800)).
  - vm_compute. reflexivity.
  - reflexivity.
  - reflexivity.
Defined.

Lemma str_rev_onto_app (s acc : string) :
  str_rev_onto s acc = str_rev s ++ acc.
Proof.
  unfold str_rev. revert acc.
  induction s as [|c s IH]; intros acc; simpl; [reflexivity|].
  rewrite (IH (String c acc)), (IH (String c "")), str_app_assoc.
  reflexivity.
Qed.

Lemma str_rev_cons (c : ascii) (s : string) :
  str_rev (String c s) = str_rev s ++ String c "".
Proof. unfold str_rev at 1. simpl. apply str_rev_onto_app. Qed.

Lemma str_rev_app (a b : string) : str_rev (a ++ b) = str_rev b ++ str_rev a.
Proof.
  induction a as [|c a IH]; simpl.
  - now rewrite str_app_nil_r.
  - now rewrite !str_rev_cons, IH, str_app_assoc.
Qed.

Lemma str_lstrip_head (s : string) :
  str_lstrip s = ""
  \/ exists c r, str_lstrip s = String c r /\ is_space c = false.
Proof.
  induction s as [|c s IH]; simpl; [now left|].
  destruct (is_space c) eqn:E; [exact IH|].
  right. now exists c, s.
Qed.

Lemma str_lstrip_app_nonspace (a : string) (c : ascii) :
  is_space c = false ->
  str_lstrip (a ++ String c "") = str_lstrip a ++ String c "".
Proof.
  intros Hc. induction a as [|x a IH]; simpl.
  - now rewrite Hc.
  - destruct (is_space x); [exact IH | reflexivity].
Qed.

Lemma str_lstrip_idem (s : string) : str_lstrip (str_lstrip s) = str_lstrip s.
Proof.
  destruct (str_lstrip_head s) as [->|(c & r & -> & Hc)]; [reflexivity|].
  simpl. now rewrite Hc.
Qed.

(** [strip] leaves no white space at either end. *)
Lemma str_strip_trimmed (s : string) :
  str_lstrip (str_strip s) = str_strip s
  /\ str_rstrip (str_strip s) = str_strip s.
Proof.
  unfold str_strip. split.
  - destruct (str_lstrip_head s) as [->|(c & r & -> & Hc)]; [reflexivity|].
    unfold str_rstrip. rewrite str_rev_cons, (str_lstrip_app_nonspace _ c Hc).
    rewrite str_rev_app. simpl. now rewrite Hc.
  - unfold str_rstrip. now rewrite str_rev_involutive, str_lstrip_idem.
Qed.

Lemma str_forall_lstrip (p : ascii -> bool) (s : string) :
  str_forall p s = true -> str_forall p (str_lstrip s) = true.
Proof.
  induction s as [|c s IH]; simpl; [auto|].
  intros H. destruct (is_space c); [|exact H].
  apply andb_true_iff in H as [_ H]. auto.
Qed.

Lemma str_forall_strip (p : ascii -> bool) (s : string) :
  str_forall p s = true -> str_forall p (str_strip s) = true.
Proof.
  intros H. unfold str_strip, str_rstrip, str_rev.
  rewrite str_forall_rev_onto, andb_true_r.
  apply str_forall_lstrip.
  rewrite str_forall_rev_onto, andb_true_r.
  now apply str_forall_lstrip.
Qed.

(** What is stored under a text field is a string with no white space
    at either end. *)
Theorem text_field_trimmed (dt : document_type) (text field : string)
    (d : dict) (v : value) :
  extract dt text = Return d ->
  in_list field (numeric_fields_of dt) = false ->
  dict_get d field = Some v ->
  exists s, v = VStr s /\ str_lstrip s = s /\ str_rstrip s = s.
Proof.
  intros Hd Hnum Hv.
  destruct (extract_lookup dt text field d v Hd Hv)
    as (pattern & m & g & b & _ & _ & _ & _ & _ & ->).
  unfold stored_value. rewrite Hnum.
  exists (str_strip g). split; [reflexivity | apply str_strip_trimmed].
Qed.

Lemma text_field_trimmed_witness :
  exists s, VStr "Jane Doe" = VStr s /\ str_lstrip s = s /\ str_rstrip s = s.
Proof.
  apply (text_field_trimmed SalarySlip "Name:  Jane Doe  " "employee_name"
           [("employee_name", VStr "Jane Doe")] (VStr "Jane Doe")).
  - vm_compute. reflexivity.
  - reflexivity.
  - reflexivity.
Defined.

Lemma alnum_not_space (c : ascii) :
  alnum c = true -> negb (is_space c) = true.
Proof. destruct c as [[] [] [] [] [] [] [] []]; vm_compute; congruence. Qed.

(** An employee identifier and a PAN, when extracted from a text of
    ASCII characters, are non-empty strings of letters and digits. *)
Theorem identifier_field_value (dt : document_type) (text field : string)
    (d : dict) (v : value) :
  ascii_text text = true ->
  (dt = SalarySlip /\ field = "employee_id")
  \/ (dt = TaxReturn /\ field = "pan") ->
  extract dt text = Return d ->
  dict_get d field = Some v ->
  exists s, v = VStr s /\ s <> "" /\ str_forall alnum s = true.
Proof.
  intros _ Hf Hd Hv.
  destruct (extract_lookup dt text field d v Hd Hv)
    as (pattern & m & g & b & Hin & _ & _ & Hb & L & ->).
  assert (Hbody : b = plus alnum
                  /\ in_list field (numeric_fields_of dt) = false).
  { destruct Hf as [[-> ->]|[-> ->]]; simpl in Hin;
      repeat (destruct Hin as [Hin|Hin];
              [first [discriminate Hin
                     | injection Hin as <-; simpl in Hb;
                       injection Hb as <-; split; reflexivity]|]);
      destruct Hin. }
  destruct Hbody as [-> Hnum].
  simpl in L. destruct L as (u & w & -> & (c & -> & Hc) & Hw).
  assert (Hal : str_forall alnum (String c "" ++ w) = true)
    by (simpl; now rewrite Hc, Hw).
  unfold stored_value. rewrite Hnum.
  rewrite str_strip_id
    by (apply (str_forall_impl alnum); [apply alnum_not_space | exact Hal]).
  eexists. split; [reflexivity|]. split; [discriminate | exact Hal].
Qed.

Lemma identifier_field_value_witness :
  exists s, VStr "ABCDE1234F" = VStr s /\ s <> ""
            /\ str_forall alnum s = true.
Proof.
  apply (identifier_field_value TaxReturn "PAN: ABCDE1234F" "pan"
           [("pan", VStr "ABCDE1234F")] (VStr "ABCDE1234F")).
  - reflexivity.
  - right. split; reflexivity.
  - vm_compute. reflexivity.
  - reflexivity.
Defined.

(** An assessment year, when extracted from a text of ASCII characters,
    reads 20dd or 20dd-dd. *)
Theorem assessment_year_value (text : string) (d : dict) (v : value) :
  ascii_text text = true ->
  extract_itr_fields text = Return d ->
  dict_get d "assessment_year" = Some v ->
  exists a b : ascii,
    is_digit a = true /\ is_digit b = true
    /\ (v = VStr ("20" ++ String a (String b ""))
        \/ exists e f : ascii,
             is_digit e = true /\ is_digit f = true
             /\ v = VStr ("20" ++ String a (String b
                            ("-" ++ String e (String f ""))))).
Proof.
  intros _ Hd Hv.
  destruct (extract_lookup TaxReturn text "assessment_year" d v Hd Hv)
    as (pattern & m & g & b & Hin & _ & _ & Hb & L & ->).
  assert (Hbody : b = year_body).
  { simpl in Hin.
    repeat (destruct Hin as [Hin|Hin];
            [first [discriminate Hin
                   | injection Hin as <-; simpl in Hb;
                     injection Hb as <-; reflexivity]|]);
    destruct Hin. }
  subst b. unfold stored_value.
  change (in_list "assessment_year" (numeric_fields_of TaxReturn)) with false.
  cbv iota.
  destruct L as [L|L]; simpl in L.
  - destruct L as (u1 & r1 & -> & (u2 & r2 & -> & (c2 & -> & H2) & (c0 & -> & H0))
                   & (u3 & r3 & -> & (ca & -> & Ha)
                   & (u4 & r4 & -> & (cb & -> & Hb')
                   & (u5 & r5 & -> & (cm & -> & Hm)
                   & (u6 & r6 & -> & (ce & -> & He) & (cf & -> & Hf)))))).
    apply chr_not_letter in H2; [|reflexivity].
    apply chr_not_letter in H0; [|reflexivity].
    apply chr_not_letter in Hm; [|reflexivity]. subst c2 c0 cm.
    exists ca, cb. split; [exact Ha|]. split; [exact Hb'|]. right.
    exists ce, cf. split; [exact He|]. split; [exact Hf|].
    simpl. rewrite str_strip_id; [reflexivity|].
    simpl.
    rewrite (proj2 (proj2 (digit_or_dot_not_sign ca (proj2 (orb_true_iff _ _) (or_introl Ha))))).
    rewrite (proj2 (proj2 (digit_or_dot_not_sign cb (proj2 (orb_true_iff _ _) (or_introl Hb'))))).
    rewrite (proj2 (proj2 (digit_or_dot_not_sign ce (proj2 (orb_true_iff _ _) (or_introl He))))).
    rewrite (proj2 (proj2 (digit_or_dot_not_sign cf (proj2 (orb_true_iff _ _) (or_introl Hf))))).
    reflexivity.
  - destruct L as (u1 & r1 & -> & (u2 & r2 & -> & (c2 & -> & H2) & (c0 & -> & H0))
                   & (u3 & r3 & -> & (ca & -> & Ha) & (cb & -> & Hb'))).
    apply chr_not_letter in H2; [|reflexivity].
    apply chr_not_letter in H0; [|reflexivity]. subst c2 c0.
    exists ca, cb. split; [exact Ha|]. split; [exact Hb'|]. left.
    simpl. rewrite str_strip_id; [reflexivity|].
    simpl.
    rewrite (proj2 (proj2 (digit_or_dot_not_sign ca (proj2 (orb_true_iff _ _) (or_introl Ha))))).
    rewrite (proj2 (proj2 (digit_or_dot_not_sign cb (proj2 (orb_true_iff _ _) (or_introl Hb'))))).
    reflexivity.
Qed.

Lemma assessment_year_value_witness :
  exists a b : ascii,
    is_digit a = true /\ is_digit b = true
    /\ (VStr "2023-24" = VStr ("20" ++ String a (String b ""))
        \/ exists e f : ascii,
             is_digit e = true /\ is_digit f = true
             /\ VStr "2023-24"
                = VStr ("20" ++ String a (String b
                          ("-" ++ String e (String f ""))))).
Proof.
  apply (assessment_year_value "AY 2023-24"
           [("assessment_year", VStr "2023-24")] (VStr "2023-24")).
  - reflexivity.
  - vm_compute. reflexivity.
  - reflexivity.
Defined.

(** A string of a literal is the literal up to the case of letters. *)
Lemma lang_lit (s w : string) :
  lang (lit s) w -> str_map to_lower w = str_map to_lower s.
Proof.
  revert w. induction s as [|c s IH]; intros w; simpl.
  - intros ->. reflexivity.
  - destruct s as [|c' s'].
    + simpl. intros (x & -> & Hx). simpl.
      apply Ascii.eqb_eq in Hx. now rewrite Hx.
    + intros (u & v & -> & (x & -> & Hx) & Hv). simpl.
      apply Ascii.eqb_eq in Hx. rewrite Hx. f_equal. apply IH, Hv.
Qed.

Lemma lang_alts (rs : list regex) (w : string) :
  lang (alts rs) w -> exists r, In r rs /\ lang r w.
Proof.
  induction rs as [|r rs IH]; simpl.
  - intros (c & _ & H). discriminate.
  - destruct rs as [|r' rs'].
    + intros H. exists r. auto.
    + intros [H|H]; [exists r; auto|].
      destruct (IH H) as (r0 & Hin & L). exists r0. auto.
Qed.

(** Every rule is a choice of labels followed by the rest. *)
Lemma rule_shape (dt : document_type) (field : string) (pattern : regex) :
  In (field, pattern) (rules_of dt) ->
  exists labels rest, pattern = Seq (alts (map lit labels)) rest.
Proof.
  destruct dt; simpl; intros H;
    repeat (destruct H as [H|H];
            [injection H as <- <-;
             unfold text_pattern, currency_pattern; cbn [seq];
             eexists _, _; reflexivity|]);
    destruct H.
Qed.

(** A field is extracted from a text of ASCII characters only if the
    text holds one of the labels of its rule, in any mix of upper and
    lower case. *)
Theorem field_needs_label (dt : document_type) (text field : string)
    (pattern : regex) (d : dict) :
  ascii_text text = true ->
  In (field, pattern) (rules_of dt) ->
  extract dt text = Return d ->
  dict_in field d = true ->
  exists labels rest label pre u post,
    pattern = Seq (alts (map lit labels)) rest
    /\ In label labels
    /\ text = pre ++ u ++ post
    /\ str_map to_lower u = str_map to_lower label.
Proof.
  intros _ Hin Hd Hf.
  apply (field_present_iff_match dt text field pattern d Hin Hd) in Hf.
  apply re_search_iff_lang in Hf as (pre & w & post & -> & L).
  destruct (rule_shape dt field pattern Hin) as (labels & rest & ->).
  simpl in L. destruct L as (u & v & -> & Lu & _).
  apply lang_alts in Lu as (r & Hr & Lr).
  apply in_map_iff in Hr as (label & <- & Hlabel).
  exists labels, rest, label, pre, u, (v ++ post).
  repeat split; auto.
  - now rewrite str_app_assoc.
  - now apply lang_lit.
Qed.

Lemma field_needs_label_witness :
  exists labels rest label pre u post,
    currency_pattern ["Tax Deducted"; "TDS"; "Income Tax"]
    = Seq (alts (map lit labels)) rest
    /\ In label labels
    /\ "tds 500" = pre ++ u ++ post
    /\ str_map to_lower u = str_map to_lower label.
Proof.
  apply (field_needs_label SalarySlip "tds 500" "tax_deducted"
           (currency_pattern ["Tax Deducted"; "TDS"; "Income Tax"])
           [("tax_deducted", VFloat 500)]).
  - reflexivity.
  - simpl. do 7 right. left. reflexivity.
  - vm_compute. reflexivity.
  - reflexivity.
Defined.

Lemma str_strip_blank (g : string) :
  str_forall is_space g = true -> str_strip g = "".
Proof.
  intros H. unfold str_strip.
  assert (E : str_lstrip g = "").
  { induction g as [|c g IH]; simpl in *; [reflexivity|].
    apply andb_true_iff in H as [Hc Hg]. rewrite Hc. auto. }
  rewrite E. reflexivity.
Qed.

(** When the group of the name rule captures white space only, as after
    a label that ends the text, the mapping holds [employee_name] with
    the empty string: the entry is there, with nothing in it. *)
Theorem employee_name_blank (text : string) (m : match_object) (g : string) :
  re_search (text_pattern ["Name"; "Employee Name"; "Employee"]
               (plus alpha_or_space)) text = Some m ->
  group1 m = Some g ->
  str_forall is_space g = true ->
  exists d, extract_salary_fields text = Return d
            /\ dict_get d "employee_name" = Some (VStr "").
Proof.
  intros Hs Hg Hb.
  destruct (extract_loop salary_numeric_fields text salary_patterns
              (rules_end_with_group SalarySlip) []) as (d & Hd & _ & _ & Hget).
  exists d. split; [exact Hd|].
  rewrite (Hget (rule_names_distinct SalarySlip) "employee_name" _ m g
             (or_introl eq_refl) Hs Hg).
  unfold stored_value. simpl. now rewrite (str_strip_blank g Hb).
Qed.

Lemma employee_name_blank_witness :
  exists d, extract_salary_fields "Name: " = Return d
            /\ dict_get d "employee_name" = Some (VStr "").
Proof.
  apply (employee_name_blank "Name: " {| group1 := Some " " |} " ");
    vm_compute; reflexivity.
Defined.

(** When [float] accepts the captured amount without its commas, the
    float is what the mapping holds under the field. *)
Theorem numeric_field_stores_float
    (dt : document_type) (text field : string) (pattern : regex)
    (m : match_object) (g : string) (f : float) :
  In (field, pattern) (rules_of dt) ->
  in_list field (numeric_fields_of dt) = true ->
  re_search pattern text = Some m ->
  group1 m = Some g ->
  py_float (remove_commas g) = Return f ->
  exists d, extract dt text = Return d
            /\ dict_get d field = Some (VFloat f).
Proof.
  intros Hin Hnum Hs Hg Hf. rewrite extract_eq.
  destruct (extract_loop (numeric_fields_of dt) text (rules_of dt)
              (rules_end_with_group dt) []) as (d & Hd & _ & _ & Hget).
  exists d. split; [exact Hd|].
  rewrite (Hget (rule_names_distinct dt) field pattern m g Hin Hs Hg).
  unfold stored_value. now rewrite Hnum, Hf.
Qed.

Lemma numeric_field_stores_float_witness :
  exists d, extract TaxReturn "Total Income ₹ 7,00,000" = Return d
            /\ dict_get d "total_income" = Some (VFloat 700000).
Proof.
  apply (numeric_field_stores_float TaxReturn "Total Income ₹ 7,00,000"
           "total_income"
           (currency_pattern ["Total Income"; "Gross Total Income"])
           {| group1 := Some "7,00,000" |} "7,00,000" 700000).
  - simpl. do 2 right. left. reflexivity.
  - reflexivity.
  - vm_compute. reflexivity.
  - reflexivity.
  - vm_compute. reflexivity.
Defined.

(** ** Extraction does not depend on the case of letters *)

Lemma case_blind_spec (p : ascii -> bool) :
  case_blind p = true -> forall c, p (to_upper c) = p c.
Proof.
  intros H c. apply Bool.eqb_prop. exact (forall_ascii _ H c).
Qed.

Lemma str_length_map (f : ascii -> ascii) (s : string) :
  String.length (str_map f s) = String.length s.
Proof. induction s as [|c s IH]; simpl; [reflexivity | now rewrite IH]. Qed.

Lemma substring_map (f : ascii -> ascii) (s : string) (n m : nat) :
  substring n m (str_map f s) = str_map f (substring n m s).
Proof.
  revert n m. induction s as [|c s IH]; intros n m; simpl.
  - destruct n, m; reflexivity.
  - destruct n as [|n]; [destruct m as [|m]|]; simpl;
      try reflexivity; now rewrite IH.
Qed.

Lemma consumed_map (f : ascii -> ascii) (s s' : string) :
  consumed (str_map f s) (str_map f s') = str_map f (consumed s s').
Proof.
  unfold consumed. now rewrite !str_length_map, substring_map.
Qed.

Lemma star_match_upper {A B : Type} (h : A -> B) (p : ascii -> bool)
    (s : string) (k : string -> option A) (k' : string -> option B) :
  case_blind p = true ->
  (forall s', k' (str_upper s') = option_map h (k s')) ->
  star_match p (str_upper s) k' = option_map h (star_match p s k).
Proof.
  intros Hp Hk. induction s as [|c s IH]; simpl.
  - apply (Hk "").
  - rewrite (case_blind_spec p Hp c). destruct (p c).
    + fold (str_upper s). rewrite IH.
      destruct (star_match p s k); [reflexivity|]. apply (Hk (String c s)).
    + apply (Hk (String c s)).
Qed.

(** On the upper-cased text the matcher takes the same steps. *)
Lemma rmatch_upper {A B : Type} (h : A -> B) (r : regex) :
  regex_forall case_blind r = true ->
  forall (s : string) (g : option string)
         (k : string -> option string -> option A)
         (k' : string -> option string -> option B),
    (forall s' g',
        k' (str_upper s') (option_map str_upper g') = option_map h (k s' g')) ->
    rmatch r (str_upper s) (option_map str_upper g) k'
    = option_map h (rmatch r s g k).
Proof.
  induction r as [|p|r1 IH1 r2 IH2|r1 IH1 r2 IH2|p|r1 IH1];
    simpl; intros Hr s g k k' Hk.
  - apply Hk.
  - destruct s as [|c s]; simpl; [reflexivity|].
    rewrite (case_blind_spec p Hr c). destruct (p c); [apply Hk | reflexivity].
  - apply andb_true_iff in Hr as [H1 H2].
    apply IH1; [exact H1|]. intros s' g'. now apply IH2.
  - apply andb_true_iff in Hr as [H1 H2].
    rewrite (IH1 H1 s g k k' Hk), (IH2 H2 s g k k' Hk).
    destruct (rmatch r1 s g k); reflexivity.
  - apply (star_match_upper h p s (fun s' => k s' g)
             (fun s' => k' s' (option_map str_upper g)) Hr).
    intros s'. apply Hk.
  - apply (IH1 Hr s g (fun s' _ => k s' (Some (consumed s s')))).
    intros s' g'. unfold str_upper at 2. rewrite consumed_map.
    apply (Hk s' (Some (consumed s s'))).
Qed.

Lemma re_search_upper (r : regex) (text : string) :
  regex_forall case_blind r = true ->
  re_search r (str_upper text) = option_map match_upper (re_search r text).
Proof.
  intros Hr.
  assert (Hhere : forall s,
             re_match_here r (str_upper s)
             = option_map match_upper (re_match_here r s)).
  { intros s. unfold re_match_here.
    apply (rmatch_upper match_upper r Hr s None). reflexivity. }
  induction text as [|c text IH].
  - pose proof (Hhere "") as H0. change (str_upper "") with "" in *.
    simpl. destruct (re_match_here r "") as [m|]; simpl in *;
      [exact H0 | reflexivity].
  - change (str_upper (String c text))
      with (String (to_upper c) (str_upper text)).
    cbn [re_search].
    change (String (to_upper c) (str_upper text))
      with (str_upper (String c text)).
    rewrite Hhere.
    destruct (re_match_here r (String c text)); [reflexivity|].
    simpl. exact IH.
Qed.

Lemma str_lstrip_upper (s : string) :
  str_lstrip (str_upper s) = str_upper (str_lstrip s).
Proof.
  assert (Hs : case_blind is_space = true) by (vm_compute; reflexivity).
  induction s as [|c s IH]; simpl; [reflexivity|].
  rewrite (case_blind_spec _ Hs c). destruct (is_space c); [exact IH | reflexivity].
Qed.

Lemma str_rev_onto_upper (s acc : string) :
  str_rev_onto (str_upper s) (str_upper acc) = str_upper (str_rev_onto s acc).
Proof.
  revert acc. induction s as [|c s IH]; intros acc; simpl; [reflexivity|].
  apply (IH (String c acc)).
Qed.

Lemma str_strip_upper (s : string) :
  str_strip (str_upper s) = str_upper (str_strip s).
Proof.
  unfold str_strip, str_rstrip, str_rev.
  rewrite str_lstrip_upper.
  rewrite (str_rev_onto_upper _ ""), str_lstrip_upper.
  apply (str_rev_onto_upper _ "").
Qed.

Lemma amount_char_upper (c : ascii) : amount_char c = true -> to_upper c = c.
Proof.
  destruct c as [[] [] [] [] [] [] [] []]; vm_compute; congruence.
Qed.

Lemma amount_upper (g : string) : lang amount_body g -> str_upper g = g.
Proof.
  intros L. apply amount_body_chars in L.
  induction g as [|c g IH]; [reflexivity|].
  simpl in L. apply andb_true_iff in L as [Hc Hg].
  unfold str_upper in *. cbn [str_map].
  now rewrite (amount_char_upper c Hc), (IH Hg).
Qed.

Lemma dict_set_upper (d : dict) (k : string) (v : value) :
  dict_set (dict_upper d) k (value_upper v) = dict_upper (dict_set d k v).
Proof.
  induction d as [|[k0 v0] d IH]; simpl; [reflexivity|].
  destruct (String.eqb k k0); simpl; [reflexivity | now rewrite IH].
Qed.

Lemma rules_case_blind (dt : document_type) (item : string * regex) :
  In item (rules_of dt) -> regex_forall case_blind (snd item) = true.
Proof.
  assert (H : forallb (fun it : string * regex => regex_forall case_blind (snd it))
                (rules_of dt) = true)
    by (destruct dt; vm_compute; reflexivity).
  rewrite forallb_forall in H. apply H.
Qed.

Lemma extract_loop_upper (dt : document_type) (text : string)
    (rules : list (string * regex)) :
  (forall item, In item rules -> In item (rules_of dt)) ->
  forall init : dict,
    for_each rules (extract_step (numeric_fields_of dt) (str_upper text))
      (dict_upper init)
    = match for_each rules (extract_step (numeric_fields_of dt) text) init with
      | Return d => Return (dict_upper d)
      | Raise e => Raise e
      end.
Proof.
  induction rules as [|[f p] rules IH]; intros Hsub init; [reflexivity|].
  cbn [for_each]. rewrite !extract_step_eq.
  assert (Hin : In (f, p) (rules_of dt)) by (apply Hsub; now left).
  rewrite (re_search_upper p text (rules_case_blind dt (f, p) Hin)).
  destruct (re_search p text) as [m|] eqn:Es; simpl.
  - destruct (final_group p) as [b|] eqn:Eb;
      [|exfalso; exact (rules_end_with_group dt (f, p) Hin Eb)].
    destruct (re_search_group p b text m Eb Es) as (g & Hg & L).
    rewrite Hg. simpl.
    assert (Hv : stored_value (numeric_fields_of dt) f (str_upper g)
                 = value_upper (stored_value (numeric_fields_of dt) f g)).
    { unfold stored_value.
      destruct (in_list f (numeric_fields_of dt)) eqn:Hnum.
      - rewrite (numeric_rule_captures_amount dt f p Hin Hnum) in Eb.
        injection Eb as <-. rewrite (amount_upper g L).
        destruct (py_float (remove_commas g)); simpl;
          [reflexivity | now rewrite (amount_upper g L)].
      - simpl. now rewrite str_strip_upper. }
    rewrite Hv, dict_set_upper. apply IH.
    intros item Hi. apply Hsub. now right.
  - apply IH. intros item Hi. apply Hsub. now right.
Qed.

(** Matching ignores the case of the whole text: on the upper-cased
    text each extractor returns the same fields, the numbers unchanged
    and the text values upper-cased. *)
Theorem extraction_ignores_case (dt : document_type) (text : string) :
  exists d, extract dt text = Return d
            /\ extract dt (str_upper text) = Return (dict_upper d).
Proof.
  destruct (extract_returns dt text) as (d & Hd). exists d.
  split; [exact Hd|]. rewrite extract_eq in *.
  change (@nil (string * value)) with (dict_upper []) at 1.
  rewrite (extract_loop_upper dt text (rules_of dt) (fun _ H => H) []).
  now rewrite Hd.
Qed.

(** ** The income chart *)

(** The chart never raises; it is drawn exactly when the calculations
    hold [annual_salary], whose bar then comes first. *)
Theorem chart_rows_iff_annual_salary (data : dict) (itr_data : option dict) :
  (dict_in "annual_salary" data = false -> chart_rows data itr_data = Return None)
  /\ (forall v, dict_get data "annual_salary" = Some v ->
        exists rest,
          chart_rows data itr_data
          = Return (Some (("Annual Salary (from slip)", v) :: rest))).
Proof.
  unfold chart_rows, dict_in, dict_getitem. split.
  - destruct (dict_get data "annual_salary"); [discriminate | reflexivity].
  - intros v ->.
    destruct itr_data as [d|]; simpl;
      [destruct (dict_get d "total_income")|];
      destruct (dict_get data "annual_tax"); simpl; eexists; reflexivity.
Qed.

Lemma annual_salary_iff_net_amount (salary_data itr_data m : dict) :
  perform_calculations salary_data itr_data = Return m ->
  dict_in "annual_salary" m = dict_in "net_amount" salary_data.
Proof.
  calc_all_cases salary_data itr_data;
    intros R; try discriminate R; injection R as <-; reflexivity.
Qed.

Lemma chart_rows_cases (data : dict) (itr_data : option dict) :
  match dict_get data "annual_salary" with
  | Some v => exists rest,
      chart_rows data itr_data
      = Return (Some (("Annual Salary (from slip)", v) :: rest))
  | None => chart_rows data itr_data = Return None
  end.
Proof.
  unfold chart_rows, dict_in, dict_getitem.
  destruct (dict_get data "annual_salary") as [v|]; [|reflexivity].
  destruct itr_data as [d|]; simpl;
    [destruct (dict_get d "total_income")|];
    destruct (dict_get data "annual_tax"); simpl; eexists; reflexivity.
Qed.

(** The calculations part of the analysis tab after a calculation that
    returned [m]: the table is formatted and the rows of the chart are
    given to the bar chart exactly when the salary slip gave a
    [net_amount] and the table did not raise, that is when the data
    frame widens its column or one metric is a string. *)
Theorem chart_rows_reached_iff
    (policy : frame_policy) (salary_data itr_data m : dict) (st : session) :
  perform_calculations salary_data itr_data = Return m ->
  st_calculations st = Some m ->
  ((exists table rows,
       show_calculations policy st = Return (Some (table, Some rows)))
   <-> dict_in "net_amount" salary_data = true
       /\ (policy = Widening \/ column_dtype m = Object)).
Proof.
  intros R Hst.
  rewrite <- (annual_salary_iff_net_amount salary_data itr_data m R).
  unfold show_calculations. rewrite Hst, format_calculations_eq.
  pose proof (chart_rows_cases m (st_itr_data st)) as Hchart.
  unfold dict_in.
  destruct (dict_get m "annual_salary") as [v|] eqn:Ea.
  - destruct Hchart as (rest & Hrows).
    assert (Hne : dict_nonempty m = true)
      by (destruct m; [discriminate Ea | reflexivity]).
    rewrite Hne.
    destruct policy, (column_dtype m); cbn [bind];
      try (rewrite Hrows; cbn [bind];
           split; [intros _; split; [reflexivity | auto] | intros _; eauto]).
    split; [intros (t & r & H); discriminate H
           | intros [_ [H|H]]; discriminate H].
  - split; [|intros [H _]; discriminate H].
    intros (t & r & H).
    destruct (dict_nonempty m); [|discriminate H].
    destruct policy, (column_dtype m); cbn [bind] in H;
      try rewrite Hchart in H; cbn [bind] in H; discriminate H.
Qed.

Lemma chart_rows_reached_iff_witness :
  (exists table rows,
     show_calculations Widening
       {| st_salary_data := None; st_salary_text := None;
          st_itr_data := None; st_itr_text := None;
          st_calculations := Some [("annual_salary", VFloat (50000 * 12))] |}
     = Return (Some (table, Some rows)))
  <-> dict_in "net_amount" [("net_amount", VFloat 50000)] = true
      /\ (Widening = Widening
          \/ column_dtype [("annual_salary", VFloat (50000 * 12))] = Object).
Proof.
  apply (chart_rows_reached_iff Widening [("net_amount", VFloat 50000)] []);
    reflexivity.
Defined.

(** ** The button handler *)

(** What the handler leaves in the session.  The mapping of a document
    is replaced exactly when a text was recognised for it.  The
    calculations are replaced exactly when one of the two fresh mappings
    has a field and [perform_calculations] returns; when neither text
    gives a field the old calculations stay, and when the calculation
    raises they stay too, beside the fresh mappings already stored. *)
Theorem process_documents_session
    (salary_ocr itr_ocr : option string) (st : session) :
  exists res st',
    process_documents salary_ocr itr_ocr st = (res, st')
    /\ st_salary_data st'
       = (if has_text salary_ocr
          then Some (fresh_fields SalarySlip salary_ocr)
          else st_salary_data st)
    /\ st_itr_data st'
       = (if has_text itr_ocr
          then Some (fresh_fields TaxReturn itr_ocr)
          else st_itr_data st)
    /\ (if dict_nonempty (fresh_fields SalarySlip salary_ocr)
           || dict_nonempty (fresh_fields TaxReturn itr_ocr)
        then match perform_calculations (fresh_fields SalarySlip salary_ocr)
                     (fresh_fields TaxReturn itr_ocr) with
             | Return m => res = Return tt /\ st_calculations st' = Some m
             | Raise e =>
                 res = Raise e /\ st_calculations st' = st_calculations st
             end
        else res = Return tt /\ st_calculations st' = st_calculations st).
Proof.
  unfold process_documents, fresh_fields, has_text.
  destruct salary_ocr as [ts|]; [destruct (extract_returns SalarySlip ts) as (ds & Hs);
                                 pose proof Hs as Hs'; simpl in Hs'|];
  (destruct itr_ocr as [ti|]; [destruct (extract_returns TaxReturn ti) as (di & Hi);
                               pose proof Hi as Hi'; simpl in Hi'|]);
  try rewrite Hs; try rewrite Hi;
  try destruct (text_truthy ts); try destruct (text_truthy ti);
  unfold run_bind, run_lift, run_ret, set_salary, set_itr, set_calculations;
  try rewrite Hs'; try rewrite Hi'; cbv beta iota;
  repeat match goal with
         | |- context [dict_nonempty ?d] => destruct d as [|? ?]; cbn [dict_nonempty orb]
         end;
  try match goal with
      | |- context [perform_calculations ?a ?b] =>
          destruct (perform_calculations a b)
      end;
  cbv beta iota; do 2 eexists; (split; [reflexivity|]); simpl; auto.
Qed.
